(** * tctools: the Thermo-Calc experimental datafile reader

    A shallow embedding of [load_exp_datafile] (src/exp_datafile.py) and
    the properties of its line-by-line state machine.  The other function
    of the file, [plot_exp_datafile], hands the result to matplotlib: it is
    embedded over an interface [pyplot] of the six calls it makes, and what
    is proved of it is the sequence of these calls.

    Conventions of the embedding.
    - A text line is a [string]; every [ascii] stands for one code point
      below 256 of the decoded text.  The input file is the list of lines
      that iterating over the file object yields (each line still carries
      its newline).  Opening and closing the file is outside the model.
    - A Python list element that is either a float or [None] is an
      [option F]: [Some v] is the float [v] and [None] is Python's [None].
    - A raised exception aborts the whole call ([with] only closes the
      file), so a computation is a [result]: [Ok v] or [Raise e].
    - The builtin [float] is a parameter [float : string -> option F] of
      the reader ([None] stands for the [ValueError] it raises); the module
      [PyFloat] gives the instance that follows CPython's [float(str)].
    - The reader takes a list for its value.  The store machine that
      follows it runs the same statements on list objects in a store, with
      [x.append(xblock)] storing a reference, and [store_machine_agrees]
      shows that both return the same. *)

From Stdlib Require Import List String Ascii Bool Arith ZArith Lia.
From Stdlib Require Import Floats.SpecFloat.
Import ListNotations.

Local Open Scope string_scope.
Local Open Scope list_scope.

(** ** Python strings: [str.strip(chars)], [str.split()], [str.join] *)

Module PyStr.

(** Code points below 256 on which [str.isspace] is true: TAB, LF, VT, FF,
    CR, the separators FS GS RS US, SPACE, NEL (0x85) and NBSP (0xA0). *)
Definition isspace (c : ascii) : bool :=
  let n := nat_of_ascii c in
  (((9 <=? n) && (n <=? 13)) || ((28 <=? n) && (n <=? 32))
   || (n =? 133) || (n =? 160))%nat.

Definition isdigit (c : ascii) : bool :=
  let n := nat_of_ascii c in ((48 <=? n) && (n <=? 57))%nat.

Fixpoint lstrip (drop : ascii -> bool) (s : string) : string :=
  match s with
  | EmptyString => EmptyString
  | String c s' => if drop c then lstrip drop s' else s
  end.

Fixpoint rstrip (drop : ascii -> bool) (s : string) : string :=
  match s with
  | EmptyString => EmptyString
  | String c s' =>
      match rstrip drop s' with
      | EmptyString => if drop c then EmptyString else String c EmptyString
      | r => String c r
      end
  end.

(** [s.strip(chars)]: both ends are cleared of the characters of [chars]. *)
Definition strip (drop : ascii -> bool) (s : string) : string :=
  rstrip drop (lstrip drop s).

Definition push_word (w : string) (ws : list string) : list string :=
  match w with EmptyString => ws | _ => w :: ws end.

(** The word that starts at the head of [s] (empty when [s] starts with
    white space) and the words after it. *)
Fixpoint split_from (s : string) : string * list string :=
  match s with
  | EmptyString => (EmptyString, [])
  | String c s' =>
      let (w, ws) := split_from s' in
      if isspace c then (EmptyString, push_word w ws) else (String c w, ws)
  end.

(** [s.split()]: the maximal runs of characters that are not white space. *)
Definition split (s : string) : list string :=
  let (w, ws) := split_from s in push_word w ws.

(** [sep.join(l)] *)
Definition join (sep : string) (l : list string) : string :=
  String.concat sep l.

End PyStr.

(** ** The builtin [float] on strings, after CPython

    [float(s)] on a [str]: white space is cleared at both ends, the
    underscores that sit between two digits are removed (any other
    underscore is an error), and the rest must be, whole,
    [[sign] (digits [. [digits]] | . digits) [(e|E) [sign] digits]] or
    [[sign] (inf | infinity | nan)] in any letter case.  The value is the
    binary64 number nearest to the decimal (ties to even; beyond the range
    it is an infinity), written as a [spec_float], whose one NaN stands for
    the NaN of either sign.  A [None] here is the [ValueError] of Python.
    Decimal digits beyond code point 255 are outside the model. *)

Module PyFloat.

Definition prec : Z := 53.
Definition emax : Z := 1024.

(** What [float] clears at both ends: the white space below 127 that C's
    [isspace] knows and the two spaces above it, which are first turned
    into a blank. *)
Definition float_space (c : ascii) : bool :=
  let n := nat_of_ascii c in
  (((9 <=? n) && (n <=? 13)) || (n =? 32) || (n =? 133) || (n =? 160))%nat.

(** Removal of the digit-grouping underscores; [prev] is the character
    before [s] (NUL at the start). *)
Fixpoint drop_underscores (prev : ascii) (s : string) : option string :=
  match s with
  | EmptyString => if Ascii.eqb prev "_" then None else Some EmptyString
  | String c s' =>
      if Ascii.eqb c "_" then
        if PyStr.isdigit prev then drop_underscores c s' else None
      else if Ascii.eqb prev "_" && negb (PyStr.isdigit c) then None
      else option_map (String c) (drop_underscores c s')
  end.

Definition sign_of (s : string) : bool * string :=
  match s with
  | String "-" r => (true, r)
  | String "+" r => (false, r)
  | _ => (false, s)
  end.

(** The leading decimal digits of [s], as numbers, and what follows. *)
Fixpoint digits (s : string) : list Z * string :=
  match s with
  | String c s' =>
      if PyStr.isdigit c then
        let (ds, r) := digits s' in
        (Z.of_nat (nat_of_ascii c - 48) :: ds, r)
      else ([], s)
  | EmptyString => ([], EmptyString)
  end.

Definition number_of (ds : list Z) : Z :=
  fold_left (fun a d => (10 * a + d)%Z) ds 0%Z.

(** The binary64 number nearest to [(-1)^s * m * 10^e]. *)
Definition of_decimal (s : bool) (m e : Z) : spec_float :=
  match m with
  | Zpos p =>
      if (0 <=? e)%Z then
        binary_round prec emax s (Z.to_pos (Zpos p * 10 ^ e)) 0
      else
        SFdiv prec emax (S754_finite s p 0)
              (S754_finite false (Z.to_pos (10 ^ (- e))) 0)
  | _ => S754_zero s
  end.

Definition lower (c : ascii) : ascii :=
  let n := nat_of_ascii c in
  if ((65 <=? n) && (n <=? 90))%nat then ascii_of_nat (n + 32) else c.

Fixpoint lowercase (s : string) : string :=
  match s with
  | EmptyString => EmptyString
  | String c s' => String (lower c) (lowercase s')
  end.

Definition inf_or_nan (neg : bool) (body : string) : option spec_float :=
  let l := lowercase body in
  if String.eqb l "inf" || String.eqb l "infinity"
  then Some (S754_infinity neg)
  else if String.eqb l "nan" then Some S754_nan
  else None.

(** The optional exponent part: [Some e] when [s] is empty ([e = 0]) or is
    a whole exponent. *)
Definition exponent_of (s : string) : option Z :=
  match s with
  | EmptyString => Some 0%Z
  | String c r =>
      if Ascii.eqb c "e" || Ascii.eqb c "E" then
        let (eneg, r1) := sign_of r in
        match digits r1 with
        | ((_ :: _) as ds, EmptyString) =>
            Some (if eneg then (- number_of ds)%Z else number_of ds)
        | _ => None
        end
      else None
  end.

Definition decimal (neg : bool) (body : string) : option spec_float :=
  let (ip, r1) := digits body in
  let (fp, r2) :=
    match r1 with
    | String "." r => digits r
    | _ => ([], r1)
    end in
  match ip ++ fp with
  | [] => None
  | ds =>
      match exponent_of r2 with
      | Some e =>
          Some (of_decimal neg (number_of ds) (e - Z.of_nat (List.length fp)))
      | None => None
      end
  end.

Definition float (s : string) : option spec_float :=
  match drop_underscores "000" (PyStr.strip float_space s) with
  | None => None
  | Some t =>
      let (neg, body) := sign_of t in
      match decimal neg body with
      | Some v => Some v
      | None => inf_or_nan neg body
      end
  end.

End PyFloat.

(** ** Exceptions and the statement monad

    A statement of the function body reads and updates the local variables
    and either ends normally or raises.  The variables keep the value they
    had when the exception was raised: that is what a handler (the bare
    [except: pass] of the reader) goes on with. *)

Inductive exn : Set :=
| UnboundLocalError   (* a local variable is read before any assignment *)
| ValueError.         (* [float] could not convert its string *)

Inductive result (A : Type) : Type :=
| Ok (a : A)
| Raise (e : exn).

Arguments Ok {A} a.
Arguments Raise {A} e.

Module Stmt.
Section Monad.
Variable S : Type.

Definition M (A : Type) : Type := S -> S * result A.

Definition ret {A} (a : A) : M A := fun st => (st, Ok a).

Definition bind {A B} (m : M A) (k : A -> M B) : M B :=
  fun st =>
    match m st with
    | (st', Ok a) => k a st'
    | (st', Raise e) => (st', Raise e)
    end.

Definition raise {A} (e : exn) : M A := fun st => (st, Raise e).

Definition gets {A} (f : S -> A) : M A := fun st => (st, Ok (f st)).

Definition modify (f : S -> S) : M unit := fun st => (f st, Ok tt).

(** [if c: body] *)
Definition when (c : bool) (body : M unit) : M unit :=
  if c then body else ret tt.

(** [try: body / except: pass] *)
Definition try_pass (body : M unit) : M unit :=
  fun st => (fst (body st), Ok tt).

(** The outcome of a whole body: the final variables, or the exception
    that left the function. *)
Definition exec (m : M unit) (st : S) : result S :=
  match m st with
  | (st', Ok _) => Ok st'
  | (_, Raise e) => Raise e
  end.
End Monad.

Arguments ret {S A} a _.
Arguments bind {S A B} m k _.
Arguments raise {S A} e _.
Arguments gets {S A} f _.
Arguments modify {S} f _.
Arguments when {S} c body _.
Arguments try_pass {S} body _.
Arguments exec {S} m st.
End Stmt.

Declare Scope stmt_scope.
Delimit Scope stmt_scope with stmt.
Notation "v <- m ;; k" := (Stmt.bind m (fun v => k))
  (at level 61, m at next level, right associativity) : stmt_scope.
Notation "m ;; k" := (Stmt.bind m (fun _ => k))
  (at level 61, right associativity) : stmt_scope.

(** ** The inputs of the worked examples *)

Module Examples.

Definition LF : string := String "010" EmptyString.

(** The lines of a file, each one ended by its newline. *)
Definition file (lines : list string) : list string :=
  map (fun l => (l ++ LF)%string) lines.

(** The round trip of the specification. *)
Definition roundtrip : list string :=
  file ["XTEXT Temperature"; "YTEXT Energy"; "BLOCK";
        "1.0 2.0"; "2.0 3.0"; "BLOCKEND"].

Definition clip_toggle : list string :=
  file ["BLOCK"; "CLIP OFF"; "1.0 2.0"; "CLIP ON"; "3.0 4.0"; "BLOCKEND"].

Definition scales_once : list string :=
  file ["XSCALE 0 100"; "YSCALE -5 5"].

Definition scales_twice : list string :=
  file ["XSCALE 0 100"; "XSCALE 1 2"].

Definition half_pair : list string :=
  file ["BLOCK"; "1.0 abc"; "BLOCKEND"].

Definition lone_blockend : list string := file ["BLOCKEND"].

Definition one_block : list string := file ["BLOCK"; "1 2"; "BLOCKEND"].

Definition bad_scale : list string := file ["XSCALE 0 abc"].

Definition label_plotted : list string :=
  file ["BLOCK"; "XTEXT PLOTTED"; "BLOCKEND"].

(** Binary64 numbers, as mantissa and exponent: [m * 2^e]. *)
Definition f0 : spec_float := S754_zero false.
Definition f1 : spec_float := S754_finite false (2 ^ 52) (-52).
Definition f2 : spec_float := S754_finite false (2 ^ 52) (-51).
Definition f3 : spec_float := S754_finite false (3 * 2 ^ 51) (-51).
Definition f4 : spec_float := S754_finite false (2 ^ 52) (-50).
Definition f5 : spec_float := S754_finite false (5 * 2 ^ 50) (-50).
Definition f5_neg : spec_float := S754_finite true (5 * 2 ^ 50) (-50).
Definition f100 : spec_float := S754_finite false (25 * 2 ^ 48) (-46).

End Examples.

(** ** The reader *)

Section Reader.

(** The float type and the builtin [float] restricted to strings. *)
Variable F : Type.
Variable float : string -> option F.

(** An element of a coordinate list: a float, or [None]. *)
Definition item : Type := option F.

(** The local variables of [load_exp_datafile] during the loop, over the
    type [B] of what stands for a block (a list object).  [xblock] and
    [yblock] are unbound ([None]) until the first [BLOCK] line. *)
Record vars (B : Type) : Type := mkState {
  blockin : bool;
  clip : bool;
  x : list B;
  y : list B;
  xblock : option B;
  yblock : option B;
  xlab : string;
  ylab : string;
  xlim : list F;
  ylim : list F
}.

Arguments mkState {B} _ _ _ _ _ _ _ _ _ _.
Arguments blockin {B} _.
Arguments clip {B} _.
Arguments x {B} _.
Arguments y {B} _.
Arguments xblock {B} _.
Arguments yblock {B} _.
Arguments xlab {B} _.
Arguments ylab {B} _.
Arguments xlim {B} _.
Arguments ylim {B} _.

(** The reader proper takes a list for its value: the variables hold the
    coordinate lists themselves.  (The section on the store, further down,
    runs the same loop with list objects kept in a store and shows that
    nothing is lost.) *)
Definition state : Type := vars (list item).

Definition set_blockin {B} (b : bool) (st : vars B) : vars B :=
  mkState b (clip st) (x st) (y st) (xblock st) (yblock st)
          (xlab st) (ylab st) (xlim st) (ylim st).
Definition set_clip {B} (b : bool) (st : vars B) : vars B :=
  mkState (blockin st) b (x st) (y st) (xblock st) (yblock st)
          (xlab st) (ylab st) (xlim st) (ylim st).
Definition set_x {B} (v : list B) (st : vars B) : vars B :=
  mkState (blockin st) (clip st) v (y st) (xblock st) (yblock st)
          (xlab st) (ylab st) (xlim st) (ylim st).
Definition set_y {B} (v : list B) (st : vars B) : vars B :=
  mkState (blockin st) (clip st) (x st) v (xblock st) (yblock st)
          (xlab st) (ylab st) (xlim st) (ylim st).
Definition set_xblock {B} (v : B) (st : vars B) : vars B :=
  mkState (blockin st) (clip st) (x st) (y st) (Some v) (yblock st)
          (xlab st) (ylab st) (xlim st) (ylim st).
Definition set_yblock {B} (v : B) (st : vars B) : vars B :=
  mkState (blockin st) (clip st) (x st) (y st) (xblock st) (Some v)
          (xlab st) (ylab st) (xlim st) (ylim st).
Definition set_xlab {B} (v : string) (st : vars B) : vars B :=
  mkState (blockin st) (clip st) (x st) (y st) (xblock st) (yblock st)
          v (ylab st) (xlim st) (ylim st).
Definition set_ylab {B} (v : string) (st : vars B) : vars B :=
  mkState (blockin st) (clip st) (x st) (y st) (xblock st) (yblock st)
          (xlab st) v (xlim st) (ylim st).
Definition set_xlim {B} (v : list F) (st : vars B) : vars B :=
  mkState (blockin st) (clip st) (x st) (y st) (xblock st) (yblock st)
          (xlab st) (ylab st) v (ylim st).
Definition set_ylim {B} (v : list F) (st : vars B) : vars B :=
  mkState (blockin st) (clip st) (x st) (y st) (xblock st) (yblock st)
          (xlab st) (ylab st) (xlim st) v.

Local Open Scope stmt_scope.
Import Stmt.

(** Reading a local variable that may still be unbound. *)
Definition read {A} (var : state -> option A) : M state A :=
  fun st =>
    match var st with
    | Some v => (st, Ok v)
    | None => (st, Raise UnboundLocalError)
    end.

(** [float(s)] *)
Definition to_float {S} (s : string) : M S F :=
  match float s with
  | Some v => ret v
  | None => raise ValueError
  end.

(** [xblock.append(float(s))]: the name [xblock] is looked up first, then
    the argument is evaluated, then the list grows. *)
Definition xblock_append_float (s : string) : M state unit :=
  xb <- read xblock ;; v <- to_float s ;;
  modify (set_xblock (xb ++ [Some v])).
Definition yblock_append_float (s : string) : M state unit :=
  yb <- read yblock ;; v <- to_float s ;;
  modify (set_yblock (yb ++ [Some v])).

(** [xblock.append(None)] *)
Definition xblock_append_None : M state unit :=
  xb <- read xblock ;; modify (set_xblock (xb ++ [None])).
Definition yblock_append_None : M state unit :=
  yb <- read yblock ;; modify (set_yblock (yb ++ [None])).

(** [xlim.append(float(s))] *)
Definition xlim_append_float (s : string) : M state unit :=
  v <- to_float s ;; modify (fun st => set_xlim (xlim st ++ [v]) st).
Definition ylim_append_float (s : string) : M state unit :=
  v <- to_float s ;; modify (fun st => set_ylim (ylim st ++ [v]) st).

(** The characters of [line.strip(' \t\n')]. *)
Definition strip_chars (c : ascii) : bool :=
  Ascii.eqb c " " || Ascii.eqb c "009" || Ascii.eqb c "010".

(** [arr = line.strip(' \t\n').split()] *)
Definition tokens (line : string) : list string :=
  PyStr.split (PyStr.strip strip_chars line).

(** [arr[i]], read only under a guard [len(arr) > i]. *)
Definition at_ (arr : list string) (i : nat) : string :=
  nth i arr EmptyString.

(** The body of [if len(arr) > 0:] (source lines 41 to 50). *)
Definition block_markers (arr : list string) : M state unit :=
  when (at_ arr 0 =? "BLOCK")
       (modify (set_xblock []) ;;
        modify (set_yblock []) ;;
        modify (set_blockin true)) ;;
  when (at_ arr 0 =? "BLOCKEND")
       (xb <- read xblock ;;
        modify (fun st => set_x (x st ++ [xb]) st) ;;
        yb <- read yblock ;;
        modify (fun st => set_y (y st ++ [yb]) st) ;;
        modify (set_blockin false)).

(** The body of [if blockin and clip:] (source lines 66 to 76). *)
Definition coordinates (arr : list string) : M state unit :=
  if at_ arr 1 =? "PLOTTED" then
    xblock_append_None ;;
    yblock_append_None
  else
    try_pass (xblock_append_float (at_ arr 0) ;;
              yblock_append_float (at_ arr 1)).

(** The body of [if len(arr) > 1:] (source lines 52 to 76). *)
Definition labels_clip_data (arr : list string) : M state unit :=
  when (at_ arr 0 =? "XTEXT")
       (modify (set_xlab (PyStr.join " " (skipn 1 arr)))) ;;
  when (at_ arr 0 =? "YTEXT")
       (modify (set_ylab (PyStr.join " " (skipn 1 arr)))) ;;
  when ((at_ arr 0 =? "CLIP") && (at_ arr 1 =? "ON"))
       (modify (set_clip true)) ;;
  when ((at_ arr 0 =? "CLIP") && (at_ arr 1 =? "OFF"))
       (modify (set_clip false)) ;;
  b <- gets blockin ;;
  c <- gets clip ;;
  when (b && c) (coordinates arr).

(** The body of [if len(arr) > 2:] (source lines 78 to 85). *)
Definition scales (arr : list string) : M state unit :=
  when (at_ arr 0 =? "XSCALE")
       (xlim_append_float (at_ arr 1) ;;
        xlim_append_float (at_ arr 2)) ;;
  when (at_ arr 0 =? "YSCALE")
       (ylim_append_float (at_ arr 1) ;;
        ylim_append_float (at_ arr 2)).

(** One turn of [for line in f:]. *)
Definition process_line (line : string) : M state unit :=
  let arr := tokens line in
  when (0 <? List.length arr)%nat (block_markers arr) ;;
  when (1 <? List.length arr)%nat (labels_clip_data arr) ;;
  when (2 <? List.length arr)%nat (scales arr).

(** The whole loop. *)
Fixpoint process_lines (f : list string) : M state unit :=
  match f with
  | [] => ret tt
  | line :: f' => process_line line ;; process_lines f'
  end.

(** The variables when the loop starts (source lines 29 to 35). *)
Definition initial : state :=
  mkState false true [] [] None None EmptyString EmptyString [] [].

(** The variables after one line, or the exception that line raises. *)
Definition step (st : state) (line : string) : result state :=
  exec (process_line line) st.

(** The variables after the lines of [f], read from [st]. *)
Definition run_from (st : state) (f : list string) : result state :=
  exec (process_lines f) st.

Definition run (f : list string) : result state := run_from initial f.

(** Source lines 88 to 93: every block followed by a [None], over
    [zip(x, y)]. *)
Definition flatten (xs ys : list (list item)) : list item * list item :=
  fold_left
    (fun (acc : list item * list item) (b : list item * list item) =>
       (fst acc ++ (fst b ++ [None]), snd acc ++ (snd b ++ [None])))
    (combine xs ys) ([], []).

(** What [x] and [y] are in the returned tuple: the list of the blocks
    when [blocks] is true, one flat list otherwise. *)
Inductive coords : Type :=
| ByBlock (l : list (list item))
| Flat (l : list item).

Definition output : Type :=
  (coords * coords * string * string * list F * list F)%type.

Definition finish (blocks : bool) (st : state) : output :=
  if negb blocks then
    let (newx, newy) := flatten (x st) (y st) in
    (Flat newx, Flat newy, xlab st, ylab st, xlim st, ylim st)
  else
    (ByBlock (x st), ByBlock (y st), xlab st, ylab st, xlim st, ylim st).

(** [load_exp_datafile(fname, blocks)], on the lines [f] of the file. *)
Definition load_exp_datafile (f : list string) (blocks : bool)
  : result output :=
  match run f with
  | Ok st => Ok (finish blocks st)
  | Raise e => Raise e
  end.

(** *** The same loop over a store of list objects

    A Python list is an object.  [x.append(xblock)] puts into [x] a
    reference to the very list that [xblock] names, and [xblock.append(v)]
    changes that list for every holder of a reference.  The machine below
    runs the loop body with the block lists kept in a store: [xblock],
    [yblock] and the elements of [x] and [y] are addresses.  (The lists
    [x], [y], [xlim] and [ylim] are each reached through one variable only;
    they stay values.) *)

Definition store : Type := list (list item).

Definition machine : Type := (vars nat * store)%type.

(** The list at address [a]. *)
Definition deref (h : store) (a : nat) : list item := nth a h [].

(** The store after the list at address [a] was changed by [f]. *)
Fixpoint update (a : nat) (f : list item -> list item) (h : store) : store :=
  match h, a with
  | [], _ => []
  | l :: h', O => f l :: h'
  | l :: h', S a' => l :: update a' f h'
  end.

Definition on_vars (f : vars nat -> vars nat) : M machine unit :=
  modify (fun m => (f (fst m), snd m)).

Definition read_ref (var : vars nat -> option nat) : M machine nat :=
  fun m =>
    match var (fst m) with
    | Some a => (m, Ok a)
    | None => (m, Raise UnboundLocalError)
    end.

(** The expression [[]]: a new, empty list object. *)
Definition new_list : M machine nat :=
  fun m => ((fst m, snd m ++ [[]]), Ok (List.length (snd m))).

(** [l.append(v)] for the list [l] at address [a]. *)
Definition append_at (a : nat) (v : item) : M machine unit :=
  modify (fun m => (fst m, update a (fun l => l ++ [v]) (snd m))).

Definition block_markers_s (arr : list string) : M machine unit :=
  when (at_ arr 0 =? "BLOCK")
       (a <- new_list ;; on_vars (set_xblock a) ;;
        b <- new_list ;; on_vars (set_yblock b) ;;
        on_vars (set_blockin true)) ;;
  when (at_ arr 0 =? "BLOCKEND")
       (xb <- read_ref xblock ;;
        on_vars (fun st => set_x (x st ++ [xb]) st) ;;
        yb <- read_ref yblock ;;
        on_vars (fun st => set_y (y st ++ [yb]) st) ;;
        on_vars (set_blockin false)).

Definition coordinates_s (arr : list string) : M machine unit :=
  if at_ arr 1 =? "PLOTTED" then
    xb <- read_ref xblock ;; append_at xb None ;;
    yb <- read_ref yblock ;; append_at yb None
  else
    try_pass (xb <- read_ref xblock ;; v <- to_float (at_ arr 0) ;;
              append_at xb (Some v) ;;
              yb <- read_ref yblock ;; w <- to_float (at_ arr 1) ;;
              append_at yb (Some w)).

Definition labels_clip_data_s (arr : list string) : M machine unit :=
  when (at_ arr 0 =? "XTEXT")
       (on_vars (set_xlab (PyStr.join " " (skipn 1 arr)))) ;;
  when (at_ arr 0 =? "YTEXT")
       (on_vars (set_ylab (PyStr.join " " (skipn 1 arr)))) ;;
  when ((at_ arr 0 =? "CLIP") && (at_ arr 1 =? "ON"))
       (on_vars (set_clip true)) ;;
  when ((at_ arr 0 =? "CLIP") && (at_ arr 1 =? "OFF"))
       (on_vars (set_clip false)) ;;
  b <- gets (fun m : machine => blockin (fst m)) ;;
  c <- gets (fun m : machine => clip (fst m)) ;;
  when (b && c) (coordinates_s arr).

Definition scales_s (arr : list string) : M machine unit :=
  when (at_ arr 0 =? "XSCALE")
       (v <- to_float (at_ arr 1) ;;
        on_vars (fun st => set_xlim (xlim st ++ [v]) st) ;;
        w <- to_float (at_ arr 2) ;;
        on_vars (fun st => set_xlim (xlim st ++ [w]) st)) ;;
  when (at_ arr 0 =? "YSCALE")
       (v <- to_float (at_ arr 1) ;;
        on_vars (fun st => set_ylim (ylim st ++ [v]) st) ;;
        w <- to_float (at_ arr 2) ;;
        on_vars (fun st => set_ylim (ylim st ++ [w]) st)).

Definition process_line_s (line : string) : M machine unit :=
  let arr := tokens line in
  when (0 <? List.length arr)%nat (block_markers_s arr) ;;
  when (1 <? List.length arr)%nat (labels_clip_data_s arr) ;;
  when (2 <? List.length arr)%nat (scales_s arr).

Fixpoint process_lines_s (f : list string) : M machine unit :=
  match f with
  | [] => ret tt
  | line :: f' => process_line_s line ;; process_lines_s f'
  end.

Definition initial_s : machine :=
  (mkState false true [] [] None None EmptyString EmptyString [] [], []).

(** The variables with every address replaced by the list it names: what
    the caller of the function sees in the returned lists. *)
Definition contents (m : machine) : state :=
  let (v, h) := m in
  mkState (blockin v) (clip v)
          (map (deref h) (x v)) (map (deref h) (y v))
          (option_map (deref h) (xblock v)) (option_map (deref h) (yblock v))
          (xlab v) (ylab v) (xlim v) (ylim v).

Definition step_s (m : machine) (line : string) : result machine :=
  exec (process_line_s line) m.

Definition run_s (f : list string) : result machine :=
  exec (process_lines_s f) initial_s.

Definition load_exp_datafile_s (f : list string) (blocks : bool)
  : result output :=
  match run_s f with
  | Ok m => Ok (finish blocks (contents m))
  | Raise e => Raise e
  end.

(** In a store every address in use is allocated, and the two lists of an
    open block are two objects that no sealed block shares. *)
Definition sound (m : machine) : Prop :=
  let (v, h) := m in
  Forall (fun a => a < List.length h) (x v)
  /\ Forall (fun a => a < List.length h) (y v)
  /\ (forall a, xblock v = Some a -> a < List.length h)
  /\ (forall b, yblock v = Some b -> b < List.length h)
  /\ (blockin v = true ->
      exists a b,
        xblock v = Some a /\ yblock v = Some b /\ a <> b /\
        ~ In a (x v) /\ ~ In a (y v) /\ ~ In b (x v) /\ ~ In b (y v)).

(** The store machine [ms] and the reader [mr] do the same from every sound
    store: the same exception, or ends that show the same contents. *)
Definition simulates (ms : M machine unit) (mr : M state unit) : Prop :=
  forall m,
    sound m ->
    match exec ms m with
    | Ok m' => sound m' /\ exec mr (contents m) = Ok (contents m')
    | Raise e => exec mr (contents m) = Raise e
    end.

(** *** Vocabulary of the properties *)

(** The first token of a line (the empty string on a blank line). *)
Definition marker (line : string) : string := at_ (tokens line) 0.

(** The second token of a line (the empty string when there is none). *)
Definition second (line : string) : string := at_ (tokens line) 1.

(** Inside a block the two block variables are bound: true of every
    state the loop reaches. *)
Definition bound (st : state) : Prop :=
  blockin st = true -> xblock st <> None /\ yblock st <> None.

(** Outside a block either nothing was ever opened, and the block
    variables are unbound, or they still name the block sealed last. *)
Definition settled (st : state) : Prop :=
  blockin st = false ->
  (xblock st = None /\ yblock st = None /\ x st = [] /\ y st = [])
  \/ (exists xs xb ys yb,
        xblock st = Some xb /\ yblock st = Some yb /\
        x st = xs ++ [xb] /\ y st = ys ++ [yb]).

Definition is_some {A} (o : option A) : bool :=
  match o with Some _ => true | None => false end.

(** [false] exactly on an [XSCALE] or [YSCALE] line of three tokens or
    more whose second or third token [float] rejects. *)
Definition scale_ok (line : string) : bool :=
  let arr := tokens line in
  if (2 <? List.length arr)%nat
     && ((at_ arr 0 =? "XSCALE") || (at_ arr 0 =? "YSCALE"))
  then is_some (float (at_ arr 1)) && is_some (float (at_ arr 2))
  else true.

(** The number of [BLOCK] ... [BLOCKEND] pairs of a stream whose block
    markers alternate and whose last block is closed; [inside] tells
    whether a block is open before the first line. *)
Fixpoint complete_pairs (inside : bool) (f : list string) : option nat :=
  match f with
  | [] => if inside then None else Some 0
  | line :: f' =>
      if marker line =? "BLOCK" then
        if inside then None else complete_pairs true f'
      else if marker line =? "BLOCKEND" then
        if inside then option_map S (complete_pairs false f') else None
      else complete_pairs inside f'
  end.

(** A well-formed input with [n] complete blocks. *)
Definition well_formed (f : list string) (n : nat) : Prop :=
  forallb scale_ok f = true /\ complete_pairs false f = Some n.

(** A block followed by its [None] delimiter. *)
Definition delimited (b : list item) : list item := b ++ [None].

(** *** The three parts of the loop body as state transformers *)

Definition opened (st : state) : state :=
  set_blockin true (set_yblock [] (set_xblock [] st)).

Definition sealed (xb yb : list item) (st : state) : state :=
  set_blockin false (set_y (y st ++ [yb]) (set_x (x st ++ [xb]) st)).

Definition relabelled {B} (arr : list string) (st : vars B) : vars B :=
  let st1 := if at_ arr 0 =? "XTEXT"
             then set_xlab (PyStr.join " " (skipn 1 arr)) st else st in
  let st2 := if at_ arr 0 =? "YTEXT"
             then set_ylab (PyStr.join " " (skipn 1 arr)) st1 else st1 in
  let st3 := if (at_ arr 0 =? "CLIP") && (at_ arr 1 =? "ON")
             then set_clip true st2 else st2 in
  if (at_ arr 0 =? "CLIP") && (at_ arr 1 =? "OFF")
  then set_clip false st3 else st3.

(** What the guarded pair of appends leaves behind. *)
Definition tried (a0 a1 : string) (st : state) : state :=
  match xblock st, float a0 with
  | Some xb, Some v =>
      let st1 := set_xblock (xb ++ [Some v]) st in
      match yblock st, float a1 with
      | Some yb, Some w => set_yblock (yb ++ [Some w]) st1
      | _, _ => st1
      end
  | _, _ => st
  end.

(** *** [plot_exp_datafile]

    The axes object and [plt.subplots] belong to matplotlib; they are taken
    as an interface.  A method changes the axes or raises an exception of
    the library (the type [E]).  The extra positional and keyword arguments
    of [plot_exp_datafile] go unchanged into every [ax.plot]; they are part
    of the method [plot]. *)

(** What [ax.plot] may be handed: a sequence of coordinates, a list of such
    sequences, or one coordinate. *)
Inductive pyarg : Type :=
| Seq (l : list item)
| Seqs (l : list (list item))
| Scalar (v : item).

(** The returned [x] (or [y]) as an argument. *)
Definition value_of (c : coords) : pyarg :=
  match c with
  | ByBlock l => Seqs l
  | Flat l => Seq l
  end.

(** The elements that iterating over the returned [x] (or [y]) yields. *)
Definition elements (c : coords) : list pyarg :=
  match c with
  | ByBlock l => map Seq l
  | Flat l => map Scalar l
  end.

Section Axes.

Variable Ax : Type.
Variable E : Type.

Record pyplot : Type := mkPyplot {
  plt_subplots : Ax + E;
  ax_plot : pyarg -> pyarg -> Ax -> Ax + E;
  ax_set_xlabel : string -> Ax -> Ax + E;
  ax_set_ylabel : string -> Ax -> Ax + E;
  ax_set_xlim : list F -> Ax -> Ax + E;
  ax_set_ylim : list F -> Ax -> Ax + E
}.

(** How a call of [plot_exp_datafile] ends. *)
Inductive drawn : Type :=
| Returned (ax : Ax)
| LoadRaised (e : exn)
| AxesRaised (e : E).

Definition and_then (r : Ax + E) (k : Ax -> Ax + E) : Ax + E :=
  match r with
  | inl ax => k ax
  | inr e => inr e
  end.

(** [for xb, yb in zip(x, y): ax.plot(xb, yb, *args, **kwargs)] *)
Fixpoint plot_each (m : pyplot) (l : list (pyarg * pyarg)) (ax : Ax)
  : Ax + E :=
  match l with
  | [] => inl ax
  | (xb, yb) :: l' => and_then (ax_plot m xb yb ax) (plot_each m l')
  end.

Definition plot_exp_datafile (m : pyplot) (f : list string)
           (ax : option Ax) (blocks : bool) : drawn :=
  match (match ax with None => plt_subplots m | Some a => inl a end) with
  | inr e => AxesRaised e
  | inl a =>
      match load_exp_datafile f blocks with
      | Raise e => LoadRaised e
      | Ok (cx, cy, xl, yl, xm, ym) =>
          let plotted :=
            if blocks
            then plot_each m (combine (elements cx) (elements cy)) a
            else ax_plot m (value_of cx) (value_of cy) a in
          match and_then (and_then (and_then (and_then plotted
                    (ax_set_xlabel m xl)) (ax_set_ylabel m yl))
                    (ax_set_xlim m xm)) (ax_set_ylim m ym) with
          | inl a' => Returned a'
          | inr e => AxesRaised e
          end
      end
  end.

End Axes.

Arguments mkPyplot {Ax E} _ _ _ _ _ _.
Arguments plt_subplots {Ax E} _.
Arguments ax_plot {Ax E} _ _ _ _.
Arguments ax_set_xlabel {Ax E} _ _ _.
Arguments ax_set_ylabel {Ax E} _ _ _.
Arguments ax_set_xlim {Ax E} _ _ _.
Arguments ax_set_ylim {Ax E} _ _ _.
Arguments Returned {Ax E} _.
Arguments LoadRaised {Ax E} _.
Arguments AxesRaised {Ax E} _.
Arguments plot_exp_datafile {Ax E} _ _ _ _.

(** An axes that only records the calls it receives, none of which
    raises: what [plot_exp_datafile] asks of any axes. *)
Inductive call : Type :=
| Subplots
| Plot (xa ya : pyarg)
| SetXlabel (s : string)
| SetYlabel (s : string)
| SetXlim (l : list F)
| SetYlim (l : list F).

Definition recorder : pyplot (list call) Empty_set :=
  mkPyplot (inl [Subplots])
           (fun xa ya log => inl (log ++ [Plot xa ya]))
           (fun s log => inl (log ++ [SetXlabel s]))
           (fun s log => inl (log ++ [SetYlabel s]))
           (fun l log => inl (log ++ [SetXlim l]))
           (fun l log => inl (log ++ [SetYlim l])).

(** *** What a stream of lines says about the result *)

(** The first tokens that the loop body tests for. *)
Definition markers : list string :=
  ["BLOCK"; "BLOCKEND"; "XTEXT"; "YTEXT"; "CLIP"; "XSCALE"; "YSCALE"].

(** A string without white space. *)
Fixpoint no_space (s : string) : bool :=
  match s with
  | EmptyString => true
  | String c s' => negb (PyStr.isspace c) && no_space s'
  end.

(** A word: not empty, no white space. *)
Definition word (t : string) : Prop := t <> EmptyString /\ no_space t = true.

(** Two states that differ in the block variables and [blockin] at most. *)
Definition same_outside_block (s1 s2 : state) : Prop :=
  clip s1 = clip s2 /\ x s1 = x s2 /\ y s1 = y s2
  /\ xlab s1 = xlab s2 /\ ylab s1 = ylab s2
  /\ xlim s1 = xlim s2 /\ ylim s1 = ylim s2.

(** The number of lines that start with [BLOCKEND]. *)
Definition count_blockend (f : list string) : nat :=
  List.length (filter (fun line => marker line =? "BLOCKEND") f).

(** The label that the lines of [f] leave, [current] being the label
    before them: the words after the marker [key] on the last line that
    has the marker and a second token. *)
Fixpoint last_label (key : string) (f : list string) (current : string)
  : string :=
  match f with
  | [] => current
  | line :: f' =>
      last_label key f'
        (if (1 <? List.length (tokens line))%nat && (marker line =? key)
         then PyStr.join " " (skipn 1 (tokens line)) else current)
  end.

(** The strings of [l] that are numbers, as numbers. *)
Definition floats_of (l : list string) : list F :=
  flat_map (fun t => match float t with Some v => [v] | None => [] end) l.

(** The numbers of a scale line: of the second and third token of a line of
    three tokens or more that starts with [key]. *)
Definition scale_pair (key : string) (line : string) : list F :=
  if (2 <? List.length (tokens line))%nat && (marker line =? key)
  then floats_of [at_ (tokens line) 1; at_ (tokens line) 2]
  else [].

Definition scale_values (key : string) (f : list string) : list F :=
  flat_map (scale_pair key) f.

(** The first line at which the reader gives up, read off the lines alone:
    a [BLOCKEND] line before any [BLOCK] line, or a scale line that is not
    numeric.  [seen] tells whether a [BLOCK] line came before [f]. *)
Fixpoint first_error (seen : bool) (f : list string) : option exn :=
  match f with
  | [] => None
  | line :: f' =>
      if marker line =? "BLOCK" then first_error true f'
      else if (marker line =? "BLOCKEND") && negb seen
      then Some UnboundLocalError
      else if negb (scale_ok line) then Some ValueError
      else first_error seen f'
  end.

(** The block variables are bound exactly when [seen] says so. *)
Definition seen_block (seen : bool) (st : state) : Prop :=
  if seen then xblock st <> None /\ yblock st <> None
  else xblock st = None /\ yblock st = None.

(** In every block the y-sequence is at most as long as the x-sequence. *)
Definition y_within_x (st : state) : Prop :=
  Forall2 (fun xb yb : list item => List.length yb <= List.length xb)
          (x st) (y st)
  /\ (forall xb yb, xblock st = Some xb -> yblock st = Some yb ->
      List.length yb <= List.length xb).

(** *** The loop body, part by part *)

Ltac stmt :=
  cbv [block_markers labels_clip_data scales coordinates
       Stmt.when Stmt.bind Stmt.modify Stmt.gets Stmt.ret Stmt.raise
       Stmt.try_pass Stmt.exec read to_float
       xblock_append_float yblock_append_float
       xblock_append_None yblock_append_None
       xlim_append_float ylim_append_float
       opened sealed relabelled tried
       set_blockin set_clip set_x set_y set_xblock set_yblock
       set_xlab set_ylab set_xlim set_ylim
       blockin clip x y xblock yblock xlab ylab xlim ylim fst snd].

(** Running the reader on given lines, with [float] known on the tokens
    it meets. *)
Ltac by_evaluation :=
  repeat (cbv; match goal with H : float _ = _ |- _ => rewrite H end);
  cbv; reflexivity.

Ltac fields :=
  cbv [opened sealed relabelled tried
       set_blockin set_clip set_x set_y set_xblock set_yblock
       set_xlab set_ylab set_xlim set_ylim
       blockin clip x y xblock yblock xlab ylab xlim ylim].

Ltac stmt_s :=
  cbv [block_markers_s labels_clip_data_s scales_s coordinates_s
       Stmt.when Stmt.bind Stmt.modify Stmt.gets Stmt.ret Stmt.raise
       Stmt.try_pass Stmt.exec read_ref to_float on_vars new_list append_at
       relabelled
       set_blockin set_clip set_x set_y set_xblock set_yblock
       set_xlab set_ylab set_xlim set_ylim
       blockin clip x y xblock yblock xlab ylab xlim ylim fst snd].

Lemma exec_bind (m k : Stmt.M state unit) st :
  Stmt.exec (Stmt.bind m (fun _ => k)) st =
  match Stmt.exec m st with
  | Ok s => Stmt.exec k s
  | Raise e => Raise e
  end.
Proof.
  unfold Stmt.exec, Stmt.bind.
  destruct (m st) as [s [[]|e]]; reflexivity.
Qed.

Lemma exec_when (c : bool) (m : Stmt.M state unit) st :
  Stmt.exec (Stmt.when c m) st = if c then Stmt.exec m st else Ok st.
Proof. destruct c; reflexivity. Qed.

Lemma exec_block_markers arr st :
  Stmt.exec (block_markers arr) st =
  if at_ arr 0 =? "BLOCK" then Ok (opened st)
  else if at_ arr 0 =? "BLOCKEND" then
    match xblock st, yblock st with
    | Some xb, Some yb => Ok (sealed xb yb st)
    | _, _ => Raise UnboundLocalError
    end
  else Ok st.
Proof.
  destruct st as [bi cl xs ys xb yb xl yl xm ym].
  destruct (String.eqb_spec (at_ arr 0) "BLOCK") as [E|E].
  - stmt. rewrite E. reflexivity.
  - stmt. rewrite (proj2 (String.eqb_neq _ _) E).
    destruct (at_ arr 0 =? "BLOCKEND"); [|reflexivity].
    destruct xb, yb; reflexivity.
Qed.

Lemma exec_coordinates arr st :
  Stmt.exec (coordinates arr) st =
  if at_ arr 1 =? "PLOTTED" then
    match xblock st, yblock st with
    | Some xb, Some yb =>
        Ok (set_yblock (yb ++ [None]) (set_xblock (xb ++ [None]) st))
    | _, _ => Raise UnboundLocalError
    end
  else Ok (tried (at_ arr 0) (at_ arr 1) st).
Proof.
  destruct st as [bi cl xs ys xb yb xl yl xm ym]. stmt.
  destruct (at_ arr 1 =? "PLOTTED").
  - destruct xb, yb; reflexivity.
  - destruct xb; [|reflexivity].
    destruct (float (at_ arr 0)); [|reflexivity].
    destruct yb; [|reflexivity].
    destruct (float (at_ arr 1)); reflexivity.
Qed.

Lemma exec_labels_clip_data arr st :
  Stmt.exec (labels_clip_data arr) st =
  let st' := relabelled arr st in
  if blockin st' && clip st' then Stmt.exec (coordinates arr) st'
  else Ok st'.
Proof.
  destruct st as [bi cl xs ys xb yb xl yl xm ym].
  unfold labels_clip_data, relabelled.
  destruct (at_ arr 0 =? "XTEXT"), (at_ arr 0 =? "YTEXT"),
    (at_ arr 0 =? "CLIP"), (at_ arr 1 =? "ON"), (at_ arr 1 =? "OFF"),
    bi, cl; cbn -[coordinates];
    try reflexivity;
    match goal with
    | |- context [coordinates arr ?s] =>
        unfold Stmt.exec;
        cbv [Stmt.bind Stmt.when Stmt.modify Stmt.gets Stmt.ret];
        destruct (coordinates arr s) as [s' [[]|e]]
    end; try reflexivity.
Qed.

Lemma exec_scales arr st :
  Stmt.exec (scales arr) st =
  if at_ arr 0 =? "XSCALE" then
    match float (at_ arr 1), float (at_ arr 2) with
    | Some v1, Some v2 => Ok (set_xlim (xlim st ++ [v1; v2]) st)
    | _, _ => Raise ValueError
    end
  else if at_ arr 0 =? "YSCALE" then
    match float (at_ arr 1), float (at_ arr 2) with
    | Some v1, Some v2 => Ok (set_ylim (ylim st ++ [v1; v2]) st)
    | _, _ => Raise ValueError
    end
  else Ok st.
Proof.
  destruct st as [bi cl xs ys xb yb xl yl xm ym].
  destruct (String.eqb_spec (at_ arr 0) "XSCALE") as [E|E].
  - stmt. rewrite E. cbn.
    destruct (float (at_ arr 1)); [|reflexivity].
    destruct (float (at_ arr 2)); [|reflexivity].
    now rewrite <- app_assoc.
  - stmt. rewrite (proj2 (String.eqb_neq _ _) E).
    destruct (at_ arr 0 =? "YSCALE"); [|reflexivity].
    destruct (float (at_ arr 1)); [|reflexivity].
    destruct (float (at_ arr 2)); [|reflexivity].
    now rewrite <- app_assoc.
Qed.

(** One line is the three parts in a row, each under its length guard;
    the first exception ends the line. *)
Lemma step_eq st line :
  step st line =
  let arr := tokens line in
  match (if (0 <? List.length arr)%nat
         then Stmt.exec (block_markers arr) st else Ok st) with
  | Ok s1 =>
      match (if (1 <? List.length arr)%nat
             then Stmt.exec (labels_clip_data arr) s1 else Ok s1) with
      | Ok s2 =>
          if (2 <? List.length arr)%nat
          then Stmt.exec (scales arr) s2 else Ok s2
      | Raise e => Raise e
      end
  | Raise e => Raise e
  end.
Proof.
  unfold step, process_line. cbv zeta.
  rewrite exec_bind, exec_when.
  destruct (if (0 <? _)%nat then _ else _) as [s1|e]; [|reflexivity].
  rewrite exec_bind, exec_when.
  destruct (if (1 <? _)%nat then _ else _) as [s2|e]; [|reflexivity].
  apply exec_when.
Qed.

Lemma run_from_nil st : run_from st [] = Ok st.
Proof. reflexivity. Qed.

Lemma run_from_cons st line f :
  run_from st (line :: f) =
  match step st line with
  | Ok st' => run_from st' f
  | Raise e => Raise e
  end.
Proof. unfold run_from, step. cbn [process_lines]. apply exec_bind. Qed.

Lemma run_from_app st f g :
  run_from st (f ++ g) =
  match run_from st f with
  | Ok st' => run_from st' g
  | Raise e => Raise e
  end.
Proof.
  revert st. induction f as [|line f IH]; intros st.
  - reflexivity.
  - cbn [app]. rewrite !run_from_cons.
    destruct (step st line); [apply IH | reflexivity].
Qed.

Lemma run_snoc f line :
  run (f ++ [line]) =
  match run f with
  | Ok st => step st line
  | Raise e => Raise e
  end.
Proof.
  unfold run. rewrite run_from_app.
  destruct (run_from initial f); [|reflexivity].
  rewrite run_from_cons. now destruct (step a line).
Qed.

(** *** What each part changes *)

Lemma relabelled_frame {B} arr (st : vars B) :
  blockin (relabelled arr st) = blockin st /\
  x (relabelled arr st) = x st /\ y (relabelled arr st) = y st /\
  xblock (relabelled arr st) = xblock st /\
  yblock (relabelled arr st) = yblock st /\
  xlim (relabelled arr st) = xlim st /\ ylim (relabelled arr st) = ylim st.
Proof.
  destruct st. fields.
  destruct (at_ arr 0 =? "XTEXT"), (at_ arr 0 =? "YTEXT"),
    (at_ arr 0 =? "CLIP"), (at_ arr 1 =? "ON"), (at_ arr 1 =? "OFF");
    cbn; repeat split.
Qed.

(** The coordinate branch touches the two block variables only, and
    never unbinds them. *)
Lemma coordinates_frame arr st st' :
  Stmt.exec (coordinates arr) st = Ok st' ->
  blockin st' = blockin st /\ clip st' = clip st /\
  x st' = x st /\ y st' = y st /\
  xlab st' = xlab st /\ ylab st' = ylab st /\
  xlim st' = xlim st /\ ylim st' = ylim st /\
  (xblock st <> None -> xblock st' <> None) /\
  (yblock st <> None -> yblock st' <> None) /\
  (xblock st' = None <-> xblock st = None) /\
  (yblock st' = None <-> yblock st = None).
Proof.
  rewrite exec_coordinates. destruct st as [bi cl xs ys xb yb xl yl xm ym].
  destruct (at_ arr 1 =? "PLOTTED").
  - fields. destruct xb, yb; intros [= <-]; cbn;
      repeat split; congruence.
  - fields.
    destruct xb, (float (at_ arr 0)), yb, (float (at_ arr 1));
      intros [= <-]; cbn; repeat split; congruence.
Qed.

Lemma coordinates_raise arr st e :
  Stmt.exec (coordinates arr) st = Raise e ->
  e = UnboundLocalError /\ (xblock st = None \/ yblock st = None).
Proof.
  rewrite exec_coordinates.
  destruct (at_ arr 1 =? "PLOTTED"); [|discriminate].
  destruct (xblock st), (yblock st); intros [= <-]; auto.
Qed.

Lemma scales_frame arr st st' :
  Stmt.exec (scales arr) st = Ok st' ->
  blockin st' = blockin st /\ clip st' = clip st /\
  x st' = x st /\ y st' = y st /\
  xblock st' = xblock st /\ yblock st' = yblock st /\
  xlab st' = xlab st /\ ylab st' = ylab st.
Proof.
  rewrite exec_scales. destruct st as [bi cl xs ys xb yb xl yl xm ym].
  destruct (at_ arr 0 =? "XSCALE"), (at_ arr 0 =? "YSCALE"),
    (float (at_ arr 1)), (float (at_ arr 2));
    intros [= <-]; cbn; repeat split.
Qed.

Lemma labels_frame arr s1 s2 :
  (if (1 <? List.length arr)%nat
   then Stmt.exec (labels_clip_data arr) s1 else Ok s1) = Ok s2 ->
  blockin s2 = blockin s1 /\ x s2 = x s1 /\ y s2 = y s1 /\
  xlim s2 = xlim s1 /\ ylim s2 = ylim s1 /\
  (xblock s2 = None <-> xblock s1 = None) /\
  (yblock s2 = None <-> yblock s1 = None) /\
  (blockin s1 = false -> xblock s2 = xblock s1 /\ yblock s2 = yblock s1).
Proof.
  destruct (1 <? List.length arr)%nat.
  - rewrite exec_labels_clip_data. cbv zeta.
    destruct (relabelled_frame arr s1)
      as (Hb & Hx & Hy & Hxb & Hyb & Hxm & Hym).
    destruct (blockin (relabelled arr s1) && clip (relabelled arr s1)) eqn:G.
    + intros H. apply coordinates_frame in H.
      destruct H as (B & _ & X & Y & _ & _ & XM & YM & _ & _ & NX & NY).
      rewrite Hxb in NX. rewrite Hyb in NY.
      apply andb_prop in G. destruct G as [G1 G2].
      repeat split; try congruence; try tauto.
    + intros [= <-]. repeat split; congruence.
  - intros [= <-]. repeat split; auto.
Qed.

Lemma labels_raise arr s1 e :
  (if (1 <? List.length arr)%nat
   then Stmt.exec (labels_clip_data arr) s1 else Ok s1) = Raise e ->
  e = UnboundLocalError /\ blockin s1 = true /\
  (xblock s1 = None \/ yblock s1 = None).
Proof.
  destruct (1 <? List.length arr)%nat; [|discriminate].
  rewrite exec_labels_clip_data. cbv zeta.
  destruct (relabelled_frame arr s1) as (Hb & _ & _ & Hxb & Hyb & _).
  destruct (blockin (relabelled arr s1) && clip (relabelled arr s1)) eqn:G;
    [|discriminate].
  intros H. apply coordinates_raise in H. apply andb_prop in G.
  rewrite Hxb, Hyb in H. destruct G. intuition congruence.
Qed.

Lemma scales_guard_frame arr s2 s3 :
  (if (2 <? List.length arr)%nat
   then Stmt.exec (scales arr) s2 else Ok s2) = Ok s3 ->
  blockin s3 = blockin s2 /\ clip s3 = clip s2 /\
  x s3 = x s2 /\ y s3 = y s2 /\
  xblock s3 = xblock s2 /\ yblock s3 = yblock s2 /\
  xlab s3 = xlab s2 /\ ylab s3 = ylab s2.
Proof.
  destruct (2 <? List.length arr)%nat.
  - apply scales_frame.
  - intros [= <-]. repeat split.
Qed.

(** The block markers, under the guard [len(arr) > 0]. *)
Lemma markers_cases arr st s1 :
  (if (0 <? List.length arr)%nat
   then Stmt.exec (block_markers arr) st else Ok st) = Ok s1 ->
  (at_ arr 0 = "BLOCK" /\ s1 = opened st)
  \/ (at_ arr 0 = "BLOCKEND" /\
      exists xb yb, xblock st = Some xb /\ yblock st = Some yb /\
                    s1 = sealed xb yb st)
  \/ (at_ arr 0 <> "BLOCK" /\ at_ arr 0 <> "BLOCKEND" /\ s1 = st).
Proof.
  destruct arr as [|a0 arr]; cbn [List.length Nat.ltb Nat.leb].
  - intros [= <-]. right; right. cbn. repeat split; discriminate.
  - rewrite exec_block_markers.
    destruct (String.eqb_spec (at_ (a0 :: arr) 0) "BLOCK") as [E|E].
    + intros [= <-]. auto.
    + destruct (String.eqb_spec (at_ (a0 :: arr) 0) "BLOCKEND") as [E'|E'].
      * destruct (xblock st) as [xb|] eqn:Hx; [|discriminate].
        destruct (yblock st) as [yb|] eqn:Hy; [|discriminate].
        intros [= <-]. right; left. eauto 6.
      * intros [= <-]. auto.
Qed.

Lemma markers_raise arr st e :
  (if (0 <? List.length arr)%nat
   then Stmt.exec (block_markers arr) st else Ok st) = Raise e ->
  e = UnboundLocalError /\ at_ arr 0 = "BLOCKEND" /\
  (xblock st = None \/ yblock st = None).
Proof.
  destruct (0 <? List.length arr)%nat; [|discriminate].
  rewrite exec_block_markers.
  destruct (at_ arr 0 =? "BLOCK"); [discriminate|].
  destruct (String.eqb_spec (at_ arr 0) "BLOCKEND") as [E|E]; [|discriminate].
  destruct (xblock st), (yblock st); intros [= <-]; auto.
Qed.

(** A line that ends normally: the block markers first, then nothing that
    touches the sealed blocks or opens or closes a block. *)
Lemma step_ok_inv st line st' :
  step st line = Ok st' ->
  exists s1,
    ((marker line = "BLOCK" /\ s1 = opened st)
     \/ (marker line = "BLOCKEND" /\
         exists xb yb, xblock st = Some xb /\ yblock st = Some yb /\
                       s1 = sealed xb yb st)
     \/ (marker line <> "BLOCK" /\ marker line <> "BLOCKEND" /\ s1 = st))
    /\ blockin st' = blockin s1 /\ x st' = x s1 /\ y st' = y s1
    /\ (xblock st' = None <-> xblock s1 = None)
    /\ (yblock st' = None <-> yblock s1 = None)
    /\ (blockin s1 = false ->
        xblock st' = xblock s1 /\ yblock st' = yblock s1).
Proof.
  rewrite step_eq. cbv zeta. unfold marker.
  destruct (if (0 <? _)%nat then _ else _) as [s1|e] eqn:H1; [|discriminate].
  destruct (if (1 <? _)%nat then _ else _) as [s2|e] eqn:H2; [|discriminate].
  intros H3. exists s1. split; [now apply markers_cases|].
  apply labels_frame in H2. apply scales_guard_frame in H3.
  destruct H2 as (B2 & X2 & Y2 & _ & _ & NX & NY & K).
  destruct H3 as (B3 & _ & X3 & Y3 & XB & YB & _).
  rewrite XB, YB.
  repeat split; try congruence; try tauto;
    intros Hf; destruct (K Hf); congruence.
Qed.

(** *** Invariants of the loop *)

Lemma step_keeps_bound st line st' :
  step st line = Ok st' -> bound st -> bound st'.
Proof.
  intros H Hb. apply step_ok_inv in H.
  destruct H as (s1 & C & B & _ & _ & NX & NY & _).
  unfold bound in *. rewrite B, NX, NY.
  destruct C as [[_ ->] | [[_ (xb & yb & _ & _ & ->)] | (_ & _ & ->)]];
    cbn; auto; intros; split; discriminate.
Qed.

Lemma step_keeps_settled st line st' :
  step st line = Ok st' -> settled st -> settled st'.
Proof.
  intros H Hs. apply step_ok_inv in H.
  destruct H as (s1 & C & B & X & Y & _ & _ & K).
  unfold settled in *. rewrite B, X, Y. intros Hf.
  destruct (K Hf) as [-> ->]. revert Hf.
  destruct C as [[_ ->] | [[_ (xb & yb & Hx & Hy & ->)] | (_ & _ & ->)]];
    cbn; auto; try discriminate.
  intros _. right. exists (x st), xb, (y st), yb. auto.
Qed.

Lemma run_from_keeps st f st' :
  run_from st f = Ok st' -> bound st /\ settled st ->
  bound st' /\ settled st'.
Proof.
  revert st. induction f as [|line f IH]; intros st.
  - intros [= <-]. auto.
  - rewrite run_from_cons. destruct (step st line) as [s|e] eqn:E;
      [|discriminate].
    intros H [Hb Hs]. apply (IH s H).
    split; [eapply step_keeps_bound | eapply step_keeps_settled]; eauto.
Qed.

Lemma initial_bound : bound initial.
Proof. unfold bound; cbn; discriminate. Qed.

Lemma initial_settled : settled initial.
Proof. unfold settled; cbn; auto. Qed.

Lemma run_bound f st : run f = Ok st -> bound st.
Proof.
  intros H. apply (run_from_keeps _ _ _ H).
  split; [apply initial_bound | apply initial_settled].
Qed.

Lemma run_settled f st : run f = Ok st -> settled st.
Proof.
  intros H. apply (run_from_keeps _ _ _ H).
  split; [apply initial_bound | apply initial_settled].
Qed.

(** The block variables stay unbound exactly as long as no line starts
    with [BLOCK]. *)
Lemma step_unbound st line st' :
  step st line = Ok st' ->
  (xblock st' = None <-> xblock st = None /\ marker line <> "BLOCK").
Proof.
  intros H. apply step_ok_inv in H.
  destruct H as (s1 & C & _ & _ & _ & NX & _ & _). rewrite NX.
  destruct C as [[E ->] | [[E (xb & yb & Hx & Hy & ->)] | (E1 & E2 & ->)]];
    cbn.
  - split; [discriminate | tauto].
  - rewrite E. intuition discriminate.
  - tauto.
Qed.

Lemma run_from_unbound st f st' :
  run_from st f = Ok st' ->
  (xblock st' = None <->
   xblock st = None /\ Forall (fun l => marker l <> "BLOCK") f).
Proof.
  revert st. induction f as [|line f IH]; intros st.
  - intros [= <-]. intuition.
  - rewrite run_from_cons. destruct (step st line) as [s|e] eqn:E;
      [|discriminate].
    intros H. rewrite (IH s H), (step_unbound _ _ _ E).
    rewrite Forall_cons_iff. tauto.
Qed.

Lemma marker_tokens line a0 :
  marker line = a0 -> a0 <> EmptyString ->
  exists rest, tokens line = a0 :: rest.
Proof.
  unfold marker, at_. destruct (tokens line) as [|t rest]; cbn.
  - congruence.
  - intros ->. eauto.
Qed.

(** A [BLOCKEND] line does nothing but seal. *)
Lemma step_blockend st line :
  marker line = "BLOCKEND" ->
  step st line =
  match xblock st, yblock st with
  | Some xb, Some yb => Ok (sealed xb yb st)
  | _, _ => Raise UnboundLocalError
  end.
Proof.
  intros Hm. destruct (marker_tokens _ _ Hm) as [rest Ht]; [discriminate|].
  rewrite step_eq, Ht. cbv zeta. cbn [List.length Nat.ltb Nat.leb].
  rewrite exec_block_markers. cbn.
  destruct (xblock st) as [xb|]; [|reflexivity].
  destruct (yblock st) as [yb|]; [|reflexivity].
  destruct rest as [|a1 [|a2 rest]]; cbn [List.length Nat.ltb Nat.leb];
    try rewrite exec_labels_clip_data; try rewrite exec_scales;
    destruct st; reflexivity.
Qed.

Lemma step_sealed_lists st line st' :
  step st line = Ok st' ->
  (x st' = x st /\ y st' = y st)
  \/ (marker line = "BLOCKEND" /\
      exists xb yb, x st' = x st ++ [xb] /\ y st' = y st ++ [yb]).
Proof.
  intros H. apply step_ok_inv in H.
  destruct H as (s1 & C & _ & -> & -> & _).
  destruct C as [[_ ->] | [[E (xb & yb & _ & _ & ->)] | (_ & _ & ->)]];
    cbn; eauto 6.
Qed.

Lemma run_from_same_length st f st' :
  run_from st f = Ok st' ->
  List.length (x st) = List.length (y st) ->
  List.length (x st') = List.length (y st').
Proof.
  revert st. induction f as [|line f IH]; intros st.
  - now intros [= <-].
  - rewrite run_from_cons. destruct (step st line) as [s|e] eqn:E;
      [|discriminate].
    intros H L. apply (IH s H).
    destruct (step_sealed_lists _ _ _ E) as [[-> ->] | (_ & xb & yb & -> & ->)];
      [assumption|].
    rewrite !length_app. cbn. now rewrite L.
Qed.

(** C9: a line that ends normally leaves the two collections of sealed
    blocks as they were, or is a BLOCKEND line and appends exactly one
    sequence to each; hence after every line of every stream (after
    every prefix of it) the two collections have the same length, and so
    have the two lists that per-block mode returns. *)
Theorem C9_sealed_lists_same_length :
  (forall st line st',
      step st line = Ok st' ->
      (x st' = x st /\ y st' = y st)
      \/ (marker line = "BLOCKEND" /\
          exists xb yb, x st' = x st ++ [xb] /\ y st' = y st ++ [yb]))
  /\ (forall f n st,
        run (firstn n f) = Ok st ->
        List.length (x st) = List.length (y st))
  /\ (forall f cx cy xl yl xm ym,
        load_exp_datafile f true = Ok (cx, cy, xl, yl, xm, ym) ->
        exists xs ys,
          cx = ByBlock xs /\ cy = ByBlock ys /\
          List.length xs = List.length ys).
Proof.
  split; [exact step_sealed_lists|]. split.
  - intros f n st H. now apply (run_from_same_length _ _ _ H).
  - intros f cx cy xl yl xm ym. unfold load_exp_datafile.
    destruct (run f) as [st|e] eqn:E; [|discriminate].
    cbn. intros [= <- <- _ _ _ _]. exists (x st), (y st).
    repeat split. now apply (run_from_same_length _ _ _ E).
Qed.

(** C2 (as the code has it): a BLOCKEND line read while no block is open
    is not a no-op.  When no line so far started with BLOCK the block
    variables are unbound and the call raises UnboundLocalError; when a
    block was opened before, the block sealed last is appended once more
    to both collections (a duplicate block) and no error is raised. *)
Theorem C2_blockend_outside_a_block f st line :
  run f = Ok st ->
  blockin st = false ->
  marker line = "BLOCKEND" ->
  (Forall (fun l => marker l <> "BLOCK") f ->
   run (f ++ [line]) = Raise UnboundLocalError)
  /\ (Exists (fun l => marker l = "BLOCK") f ->
      exists xs xb ys yb st',
        x st = xs ++ [xb] /\ y st = ys ++ [yb] /\
        run (f ++ [line]) = Ok st' /\
        x st' = xs ++ [xb; xb] /\ y st' = ys ++ [yb; yb] /\
        blockin st' = false).
Proof.
  intros Hrun Hout Hm.
  pose proof (run_settled _ _ Hrun Hout) as Hs.
  pose proof (run_from_unbound _ _ _ Hrun) as Hu.
  rewrite run_snoc, Hrun, (step_blockend _ _ Hm).
  split.
  - intros Hall.
    assert (Hx : xblock st = None) by (apply Hu; auto).
    now rewrite Hx.
  - intros Hex.
    destruct Hs as [(Hx & _) | (xs & xb & ys & yb & Hx & Hy & Hxs & Hys)].
    + apply Hu in Hx. destruct Hx as [_ Hall].
      apply Forall_Exists_neg in Hall. contradiction.
    + exists xs, xb, ys, yb, (sealed xb yb st).
      rewrite Hx, Hy. cbn. rewrite Hxs, Hys, <- !app_assoc.
      repeat split.
Qed.

(** *** Which lines raise *)

Lemma scales_guard_cases line s :
  let arr := tokens line in
  if scale_ok line
  then exists s3,
      (if (2 <? List.length arr)%nat
       then Stmt.exec (scales arr) s else Ok s) = Ok s3
  else (if (2 <? List.length arr)%nat
        then Stmt.exec (scales arr) s else Ok s) = Raise ValueError.
Proof.
  cbv zeta. unfold scale_ok.
  destruct (2 <? List.length (tokens line))%nat; cbn [andb]; [|eauto].
  rewrite exec_scales.
  destruct (at_ (tokens line) 0 =? "XSCALE"), (at_ (tokens line) 0 =? "YSCALE"),
    (float (at_ (tokens line) 1)), (float (at_ (tokens line) 2));
    cbn; eauto.
Qed.

Lemma markers_keep_bound arr st s1 :
  (if (0 <? List.length arr)%nat
   then Stmt.exec (block_markers arr) st else Ok st) = Ok s1 ->
  bound st -> bound s1.
Proof.
  intros H Hb. apply markers_cases in H.
  destruct H as [[_ ->] | [[_ (xb & yb & _ & _ & ->)] | (_ & _ & ->)]];
    unfold bound; cbn; auto; intros; split; discriminate.
Qed.

Lemma step_raise_inv st line e :
  bound st ->
  step st line = Raise e ->
  (e = UnboundLocalError /\ marker line = "BLOCKEND" /\
   (xblock st = None \/ yblock st = None))
  \/ (e = ValueError /\ scale_ok line = false).
Proof.
  intros Hb. rewrite step_eq. cbv zeta. unfold marker.
  destruct (if (0 <? _)%nat then _ else _) as [s1|e1] eqn:H1.
  - apply markers_keep_bound in H1; [|assumption].
    destruct (if (1 <? _)%nat then _ else _) as [s2|e2] eqn:H2.
    + intros H3. right.
      pose proof (scales_guard_cases line s2) as G. cbv zeta in G.
      destruct (scale_ok line).
      * destruct G as [s3 G]. congruence.
      * split; congruence.
    + apply labels_raise in H2. destruct H2 as (_ & B & N).
      destruct (H1 B). tauto.
  - intros [= <-]. left. now apply markers_raise in H1.
Qed.

Lemma step_total st line :
  bound st ->
  scale_ok line = true ->
  (marker line = "BLOCKEND" -> xblock st <> None /\ yblock st <> None) ->
  exists st', step st line = Ok st'.
Proof.
  intros Hb Hs Hm. destruct (step st line) as [st'|e] eqn:E; [eauto|].
  apply step_raise_inv in E; [|assumption].
  destruct E as [(_ & M & N) | (_ & S)]; [|congruence].
  destruct (Hm M). tauto.
Qed.

Lemma scale_line_marker line :
  scale_ok line = false ->
  (marker line = "XSCALE" \/ marker line = "YSCALE")
  /\ (2 <? List.length (tokens line))%nat = true.
Proof.
  unfold scale_ok, marker.
  destruct (2 <? List.length (tokens line))%nat; [|discriminate].
  destruct (String.eqb_spec (at_ (tokens line) 0) "XSCALE");
    destruct (String.eqb_spec (at_ (tokens line) 0) "YSCALE");
    cbn; auto; discriminate.
Qed.

Lemma step_scale_raise st line :
  bound st -> scale_ok line = false -> step st line = Raise ValueError.
Proof.
  intros Hb Hs. destruct (step st line) as [st'|e] eqn:E.
  - exfalso. revert E. rewrite step_eq. cbv zeta.
    destruct (if (0 <? _)%nat then _ else _) as [s1|e1]; [|discriminate].
    destruct (if (1 <? _)%nat then _ else _) as [s2|e2]; [|discriminate].
    pose proof (scales_guard_cases line s2) as G. cbv zeta in G.
    rewrite Hs in G. congruence.
  - apply step_raise_inv in E; [|assumption].
    destruct E as [(_ & M & _) | (-> & _)]; [|reflexivity].
    destruct (scale_line_marker _ Hs) as [[M'|M'] _]; congruence.
Qed.

(** C3 (as the code has it): only the coordinate lines are guarded.  After
    any lines that were read without an exception, the next line raises
    ValueError exactly when it is an XSCALE or YSCALE line of at least
    three tokens whose second or third token [float] rejects; any other
    line that is not a BLOCKEND is processed without an exception,
    whatever its tokens are. *)
Theorem C3_value_error_only_on_scale_lines f st line :
  run f = Ok st ->
  (run (f ++ [line]) = Raise ValueError <-> scale_ok line = false)
  /\ (scale_ok line = true -> marker line <> "BLOCKEND" ->
      exists st', run (f ++ [line]) = Ok st').
Proof.
  intros Hrun. pose proof (run_bound _ _ Hrun) as Hb.
  rewrite run_snoc, Hrun. split; [split|].
  - intros E. apply step_raise_inv in E; [|assumption].
    destruct E as [(? & _) | (_ & ?)]; [discriminate | assumption].
  - now apply step_scale_raise.
  - intros Hs Hm. apply step_total; auto; intros; contradiction.
Qed.

(** *** Counting the blocks *)

Lemma step_block_state st line st' :
  step st line = Ok st' ->
  blockin st' =
    (if marker line =? "BLOCK" then true
     else if marker line =? "BLOCKEND" then false else blockin st)
  /\ List.length (x st') =
     (if marker line =? "BLOCKEND"
      then S (List.length (x st)) else List.length (x st))
  /\ List.length (y st') =
     (if marker line =? "BLOCKEND"
      then S (List.length (y st)) else List.length (y st)).
Proof.
  intros H. apply step_ok_inv in H.
  destruct H as (s1 & C & -> & -> & -> & _).
  destruct C as [[E ->] | [[E (xb & yb & _ & _ & ->)] | (E1 & E2 & ->)]].
  - rewrite E. cbn. auto.
  - rewrite E. cbn. rewrite !length_app. cbn. lia.
  - apply String.eqb_neq in E1, E2. rewrite E1, E2. auto.
Qed.

Lemma run_from_pairs f :
  forall st n,
    bound st ->
    forallb scale_ok f = true ->
    complete_pairs (blockin st) f = Some n ->
    exists st',
      run_from st f = Ok st' /\
      List.length (x st') = List.length (x st) + n /\
      List.length (y st') = List.length (y st) + n.
Proof.
  induction f as [|line f IH]; intros st n Hb Hs Hp.
  - cbn in Hp. destruct (blockin st); [discriminate|].
    injection Hp as <-. exists st. rewrite run_from_nil. repeat split; lia.
  - cbn [forallb] in Hs. apply andb_prop in Hs. destruct Hs as [Hs1 Hs2].
    assert (Hm : marker line = "BLOCKEND" ->
                 xblock st <> None /\ yblock st <> None).
    { intros E. apply Hb. cbn [complete_pairs] in Hp. rewrite E in Hp.
      cbn in Hp. destruct (blockin st); [reflexivity | discriminate]. }
    destruct (step_total st line Hb Hs1 Hm) as [s E].
    pose proof (step_keeps_bound _ _ _ E Hb) as Hb'.
    destruct (step_block_state _ _ _ E) as (B & X & Y).
    rewrite run_from_cons, E. cbn [complete_pairs] in Hp.
    destruct (marker line =? "BLOCK") eqn:M1.
    + destruct (blockin st); [discriminate|].
      rewrite <- B in Hp.
      destruct (IH s n Hb' Hs2 Hp) as (st' & R & LX & LY).
      exists st'. apply String.eqb_eq in M1. rewrite M1 in X, Y.
      cbn in X, Y. repeat split; [assumption | lia | lia].
    + destruct (marker line =? "BLOCKEND") eqn:M2.
      * destruct (blockin st); [|discriminate].
        rewrite <- B in Hp.
        destruct (complete_pairs (blockin s) f) as [k|] eqn:K;
          [|discriminate].
        injection Hp as <-.
        destruct (IH s k Hb' Hs2 K) as (st' & R & LX & LY).
        exists st'. repeat split; [assumption | lia | lia].
      * rewrite <- B in Hp.
        destruct (IH s n Hb' Hs2 Hp) as (st' & R & LX & LY).
        exists st'. repeat split; [assumption | lia | lia].
Qed.

Lemma flatten_from xs :
  forall ys ax ay,
    List.length xs = List.length ys ->
    fold_left
      (fun (acc : list item * list item) (b : list item * list item) =>
         (fst acc ++ (fst b ++ [None]), snd acc ++ (snd b ++ [None])))
      (combine xs ys) (ax, ay)
    = (ax ++ List.concat (map delimited xs),
       ay ++ List.concat (map delimited ys)).
Proof.
  induction xs as [|xb xs IH]; intros [|yb ys] ax ay L;
    try discriminate L.
  - cbn. now rewrite !app_nil_r.
  - cbn [combine fold_left map List.concat fst snd].
    rewrite IH by (cbn in L; lia).
    unfold delimited. now rewrite <- !app_assoc.
Qed.

Lemma flatten_eq xs ys :
  List.length xs = List.length ys ->
  flatten xs ys =
  (List.concat (map delimited xs), List.concat (map delimited ys)).
Proof. intros L. unfold flatten. now rewrite flatten_from. Qed.

(** C6: on a well-formed input with [n] complete BLOCK and BLOCKEND pairs
    (block markers alternate, the last block is closed, every scale line
    is numeric) the call returns; per-block mode returns exactly [n]
    x-sequences and [n] y-sequences, and flattened mode returns, with the
    same labels and limits, the one x-sequence and the one y-sequence
    made of these [n] blocks in order, each followed by a None. *)
Theorem C6_block_count_and_flattening f n :
  well_formed f n ->
  exists xs ys xl yl xm ym,
    load_exp_datafile f true = Ok (ByBlock xs, ByBlock ys, xl, yl, xm, ym)
    /\ List.length xs = n /\ List.length ys = n
    /\ load_exp_datafile f false =
       Ok (Flat (List.concat (map delimited xs)),
           Flat (List.concat (map delimited ys)), xl, yl, xm, ym).
Proof.
  intros [Hs Hp].
  destruct (run_from_pairs f initial n initial_bound Hs Hp)
    as (st & R & LX & LY).
  exists (x st), (y st), (xlab st), (ylab st), (xlim st), (ylim st).
  unfold load_exp_datafile, run. rewrite R. cbn in LX, LY.
  unfold finish. cbn [negb]. rewrite flatten_eq by congruence.
  repeat split; assumption.
Qed.

(** *** Labels, the clip flag and the limits *)

Lemma step_stages st line st' :
  step st line = Ok st' ->
  let arr := tokens line in
  exists s1 s2,
    (if (0 <? List.length arr)%nat
     then Stmt.exec (block_markers arr) st else Ok st) = Ok s1
    /\ (if (1 <? List.length arr)%nat
        then Stmt.exec (labels_clip_data arr) s1 else Ok s1) = Ok s2
    /\ (if (2 <? List.length arr)%nat
        then Stmt.exec (scales arr) s2 else Ok s2) = Ok st'.
Proof.
  rewrite step_eq. cbv zeta.
  destruct (if (0 <? _)%nat then _ else _) as [s1|e] eqn:H1; [|discriminate].
  destruct (if (1 <? _)%nat then _ else _) as [s2|e] eqn:H2; [|discriminate].
  intros H3. exists s1, s2. auto.
Qed.

Lemma relabelled_clip {B} arr (st : vars B) :
  clip (relabelled arr st) =
  if (at_ arr 0 =? "CLIP") && (at_ arr 1 =? "OFF") then false
  else if (at_ arr 0 =? "CLIP") && (at_ arr 1 =? "ON") then true
  else clip st.
Proof.
  destruct st. fields.
  destruct (at_ arr 0 =? "XTEXT"), (at_ arr 0 =? "YTEXT"),
    (at_ arr 0 =? "CLIP"), (at_ arr 1 =? "ON"), (at_ arr 1 =? "OFF");
    reflexivity.
Qed.

Lemma relabelled_xlab {B} arr (st : vars B) :
  xlab (relabelled arr st) =
  if at_ arr 0 =? "XTEXT" then PyStr.join " " (skipn 1 arr) else xlab st.
Proof.
  destruct st. fields.
  destruct (at_ arr 0 =? "XTEXT"), (at_ arr 0 =? "YTEXT"),
    (at_ arr 0 =? "CLIP"), (at_ arr 1 =? "ON"), (at_ arr 1 =? "OFF");
    reflexivity.
Qed.

Lemma relabelled_ylab {B} arr (st : vars B) :
  ylab (relabelled arr st) =
  if at_ arr 0 =? "YTEXT" then PyStr.join " " (skipn 1 arr) else ylab st.
Proof.
  destruct st. fields.
  destruct (at_ arr 0 =? "XTEXT"), (at_ arr 0 =? "YTEXT"),
    (at_ arr 0 =? "CLIP"), (at_ arr 1 =? "ON"), (at_ arr 1 =? "OFF");
    reflexivity.
Qed.

(** The second part of the body is the relabelling, followed by the
    coordinate branch when a block is open and the clip is on. *)
Lemma labels_meta arr s1 s2 :
  Stmt.exec (labels_clip_data arr) s1 = Ok s2 ->
  clip s2 = clip (relabelled arr s1)
  /\ xlab s2 = xlab (relabelled arr s1)
  /\ ylab s2 = ylab (relabelled arr s1)
  /\ (blockin s1 && clip (relabelled arr s1) = false ->
      s2 = relabelled arr s1).
Proof.
  rewrite exec_labels_clip_data. cbv zeta.
  destruct (relabelled_frame arr s1) as (Hb & _). rewrite Hb.
  destruct (blockin s1 && clip (relabelled arr s1)).
  - intros H. apply coordinates_frame in H.
    destruct H as (_ & C & _ & _ & XL & YL & _).
    repeat split; auto. discriminate.
  - intros [= <-]. auto.
Qed.

Lemma markers_meta arr st s1 :
  (if (0 <? List.length arr)%nat
   then Stmt.exec (block_markers arr) st else Ok st) = Ok s1 ->
  clip s1 = clip st /\ xlab s1 = xlab st /\ ylab s1 = ylab st
  /\ xlim s1 = xlim st /\ ylim s1 = ylim st.
Proof.
  intros H. apply markers_cases in H.
  destruct H as [[_ ->] | [[_ (xb & yb & _ & _ & ->)] | (_ & _ & ->)]];
    cbn; auto.
Qed.

Lemma relabelled_meta_eq {B} arr (s1 st : vars B) :
  clip s1 = clip st -> xlab s1 = xlab st -> ylab s1 = ylab st ->
  clip (relabelled arr s1) = clip (relabelled arr st)
  /\ xlab (relabelled arr s1) = xlab (relabelled arr st)
  /\ ylab (relabelled arr s1) = ylab (relabelled arr st).
Proof.
  intros C X Y.
  rewrite !relabelled_clip, !relabelled_xlab, !relabelled_ylab, C, X, Y.
  auto.
Qed.

(** The clip flag and the labels after a line. *)
Lemma step_meta st line st' :
  step st line = Ok st' ->
  let arr := tokens line in
  let st2 := if (1 <? List.length arr)%nat then relabelled arr st else st in
  clip st' = clip st2 /\ xlab st' = xlab st2 /\ ylab st' = ylab st2.
Proof.
  intros H. apply step_stages in H. cbv zeta in *.
  destruct H as (s1 & s2 & H1 & H2 & H3).
  apply markers_meta in H1. destruct H1 as (C1 & X1 & Y1 & _).
  apply scales_guard_frame in H3.
  destruct H3 as (_ & C3 & _ & _ & _ & _ & X3 & Y3).
  rewrite C3, X3, Y3.
  destruct (1 <? List.length (tokens line))%nat.
  - apply labels_meta in H2. destruct H2 as (C2 & X2 & Y2 & _).
    destruct (relabelled_meta_eq (tokens line) s1 st C1 X1 Y1) as (? & ? & ?).
    repeat split; congruence.
  - injection H2 as <-. auto.
Qed.

Lemma second_short line :
  (1 <? List.length (tokens line))%nat = false -> second line = EmptyString.
Proof.
  unfold second, at_. intros H. apply Nat.ltb_ge in H.
  now apply nth_overflow.
Qed.

Lemma step_clip st line st' :
  step st line = Ok st' ->
  clip st' =
  if (marker line =? "CLIP") && (second line =? "OFF") then false
  else if (marker line =? "CLIP") && (second line =? "ON") then true
  else clip st.
Proof.
  intros H. apply step_meta in H. cbv zeta in H. destruct H as (-> & _).
  destruct (1 <? List.length (tokens line))%nat eqn:L.
  - apply relabelled_clip.
  - rewrite (second_short _ L). cbn. now rewrite !andb_false_r.
Qed.

Lemma step_clip_off_blocks st line st' :
  step st line = Ok st' ->
  clip st = false ->
  marker line <> "BLOCK" ->
  ~ (marker line = "CLIP" /\ second line = "ON") ->
  xblock st' = xblock st /\ yblock st' = yblock st.
Proof.
  intros H Hc Hm Hon. apply step_stages in H. cbv zeta in H.
  destruct H as (s1 & s2 & H1 & H2 & H3).
  apply scales_guard_frame in H3.
  destruct H3 as (_ & _ & _ & _ & -> & -> & _).
  assert (K : xblock s1 = xblock st /\ yblock s1 = yblock st
              /\ clip s1 = clip st).
  { apply markers_cases in H1. fold (marker line) in H1.
    destruct H1 as [[E _] | [[_ (xb & yb & _ & _ & ->)] | (_ & _ & ->)]];
      [contradiction | cbn; auto | auto]. }
  destruct K as (<- & <- & C1).
  destruct (1 <? List.length (tokens line))%nat.
  - apply labels_meta in H2. destruct H2 as (_ & _ & _ & K).
    rewrite K;
      [destruct (relabelled_frame (tokens line) s1) as (_ & _ & _ & ? & ? & _);
       auto|].
    rewrite relabelled_clip, C1, Hc.
    fold (marker line) (second line).
    destruct (String.eqb_spec (marker line) "CLIP");
      destruct (String.eqb_spec (second line) "ON");
      destruct (second line =? "OFF"); cbn;
      try apply andb_false_r; tauto.
  - injection H2 as <-. auto.
Qed.

Lemma scale_ok_other line :
  marker line <> "XSCALE" -> marker line <> "YSCALE" ->
  scale_ok line = true.
Proof.
  intros H1 H2. destruct (scale_ok line) eqn:E; [reflexivity|].
  destruct (scale_line_marker _ E) as [[?|?] _]; contradiction.
Qed.

Lemma marker_of line a0 rest : tokens line = a0 :: rest -> marker line = a0.
Proof. unfold marker. now intros ->. Qed.

(** An [XSCALE] line of numbers, in any state the loop reaches. *)
Lemma step_xscale st line a1 a2 rest v1 v2 :
  bound st ->
  tokens line = "XSCALE" :: a1 :: a2 :: rest ->
  float a1 = Some v1 -> float a2 = Some v2 ->
  exists st',
    step st line = Ok st' /\
    xlim st' = xlim st ++ [v1; v2] /\ ylim st' = ylim st.
Proof.
  intros Hb Ht F1 F2.
  assert (Hs : scale_ok line = true).
  { unfold scale_ok. rewrite Ht. cbn. now rewrite F1, F2. }
  destruct (step_total st line Hb Hs) as [st' E].
  { rewrite (marker_of _ _ _ Ht). discriminate. }
  exists st'. split; [assumption|].
  apply step_stages in E. cbv zeta in E.
  destruct E as (s1 & s2 & H1 & H2 & H3).
  apply markers_meta in H1. destruct H1 as (_ & _ & _ & X1 & Y1).
  apply labels_frame in H2. destruct H2 as (_ & _ & _ & X2 & Y2 & _).
  rewrite Ht in H3. cbn [List.length Nat.ltb Nat.leb] in H3.
  rewrite exec_scales in H3. cbn in H3. rewrite F1, F2 in H3.
  injection H3 as <-. cbn. split; congruence.
Qed.

Lemma step_yscale st line a1 a2 rest v1 v2 :
  bound st ->
  tokens line = "YSCALE" :: a1 :: a2 :: rest ->
  float a1 = Some v1 -> float a2 = Some v2 ->
  exists st',
    step st line = Ok st' /\
    ylim st' = ylim st ++ [v1; v2] /\ xlim st' = xlim st.
Proof.
  intros Hb Ht F1 F2.
  assert (Hs : scale_ok line = true).
  { unfold scale_ok. rewrite Ht. cbn. now rewrite F1, F2. }
  destruct (step_total st line Hb Hs) as [st' E].
  { rewrite (marker_of _ _ _ Ht). discriminate. }
  exists st'. split; [assumption|].
  apply step_stages in E. cbv zeta in E.
  destruct E as (s1 & s2 & H1 & H2 & H3).
  apply markers_meta in H1. destruct H1 as (_ & _ & _ & X1 & Y1).
  apply labels_frame in H2. destruct H2 as (_ & _ & _ & X2 & Y2 & _).
  rewrite Ht in H3. cbn [List.length Nat.ltb Nat.leb] in H3.
  rewrite exec_scales in H3. cbn in H3. rewrite F1, F2 in H3.
  injection H3 as <-. cbn. split; congruence.
Qed.

(** A line of two tokens or more that starts with a label or clip
    marker never raises in a state the loop reaches. *)
Lemma step_label_total st line a0 a1 rest :
  bound st ->
  tokens line = a0 :: a1 :: rest ->
  a0 = "XTEXT" \/ a0 = "YTEXT" \/ a0 = "CLIP" ->
  exists st',
    step st line = Ok st' /\
    clip st' = clip (relabelled (tokens line) st) /\
    xlab st' = xlab (relabelled (tokens line) st) /\
    ylab st' = ylab (relabelled (tokens line) st).
Proof.
  intros Hb Ht Ha. pose proof (marker_of _ _ _ Ht) as Hm.
  destruct (step_total st line Hb) as [st' E].
  - apply scale_ok_other; rewrite Hm;
      destruct Ha as [->|[->| ->]]; discriminate.
  - rewrite Hm. destruct Ha as [->|[->| ->]]; discriminate.
  - exists st'. split; [assumption|].
    assert (L : (1 <? List.length (tokens line))%nat = true)
      by now rewrite Ht.
    apply step_meta in E. cbv zeta in E. now rewrite L in E.
Qed.

(** *** The coordinate branch *)

Lemma tried_rejected a0 a1 st : float a0 = None -> tried a0 a1 st = st.
Proof. unfold tried. intros ->. now destruct (xblock st). Qed.

Lemma relabelled_other {B} arr (st : vars B) :
  at_ arr 0 <> "XTEXT" -> at_ arr 0 <> "YTEXT" -> at_ arr 0 <> "CLIP" ->
  relabelled arr st = st.
Proof.
  intros H1 H2 H3. apply String.eqb_neq in H1, H2, H3.
  unfold relabelled. rewrite H1, H2, H3. now destruct st.
Qed.

(** Inside an open block with the clip on, a line whose first token is no
    marker and whose second token is not PLOTTED is the guarded pair of
    appends and nothing else. *)
Lemma step_coordinate_line st line a0 a1 rest :
  tokens line = a0 :: a1 :: rest ->
  ~ In a0 ["BLOCK"; "BLOCKEND"; "XTEXT"; "YTEXT"; "CLIP";
           "XSCALE"; "YSCALE"] ->
  a1 <> "PLOTTED" ->
  blockin st = true -> clip st = true ->
  step st line = Ok (tried a0 a1 st).
Proof.
  intros Ht Hn Hp Hb Hc. cbn [In] in Hn.
  assert (N1 : a0 <> "BLOCK") by (intros E; apply Hn; rewrite E; tauto).
  assert (N2 : a0 <> "BLOCKEND") by (intros E; apply Hn; rewrite E; tauto).
  assert (N3 : a0 <> "XTEXT") by (intros E; apply Hn; rewrite E; tauto).
  assert (N4 : a0 <> "YTEXT") by (intros E; apply Hn; rewrite E; tauto).
  assert (N5 : a0 <> "CLIP") by (intros E; apply Hn; rewrite E; tauto).
  assert (N6 : a0 <> "XSCALE") by (intros E; apply Hn; rewrite E; tauto).
  assert (N7 : a0 <> "YSCALE") by (intros E; apply Hn; rewrite E; tauto).
  rewrite step_eq, Ht. cbv zeta. cbn [List.length Nat.ltb Nat.leb].
  rewrite exec_block_markers. cbn [at_ nth].
  rewrite (proj2 (String.eqb_neq _ _) N1), (proj2 (String.eqb_neq _ _) N2).
  rewrite exec_labels_clip_data. cbv zeta.
  rewrite relabelled_other by assumption.
  rewrite Hb, Hc. cbn [andb].
  rewrite exec_coordinates. cbn [at_ nth].
  rewrite (proj2 (String.eqb_neq _ _) Hp).
  destruct rest as [|a2 rest]; cbn [List.length Nat.ltb Nat.leb];
    [reflexivity|].
  rewrite exec_scales. cbn [at_ nth].
  now rewrite (proj2 (String.eqb_neq _ _) N6),
    (proj2 (String.eqb_neq _ _) N7).
Qed.

(** When the first token is no number the line changes nothing. *)
Lemma step_coordinate_line_discarded st line a0 a1 rest :
  tokens line = a0 :: a1 :: rest ->
  ~ In a0 ["BLOCK"; "BLOCKEND"; "XTEXT"; "YTEXT"; "CLIP";
           "XSCALE"; "YSCALE"] ->
  a1 <> "PLOTTED" ->
  blockin st = true -> clip st = true ->
  float a0 = None ->
  step st line = Ok st.
Proof.
  intros Ht Hn Hp Hb Hc F0.
  rewrite (step_coordinate_line st line a0 a1 rest) by assumption.
  now rewrite tried_rejected.
Qed.

(** The slip of the guarded pair: when the first token is a number and
    the second is not, the x value stays appended and the y-sequence is
    left one element short. *)
Lemma step_coordinate_line_partial st line a0 a1 rest xb v :
  tokens line = a0 :: a1 :: rest ->
  ~ In a0 ["BLOCK"; "BLOCKEND"; "XTEXT"; "YTEXT"; "CLIP";
           "XSCALE"; "YSCALE"] ->
  a1 <> "PLOTTED" ->
  blockin st = true -> clip st = true ->
  xblock st = Some xb ->
  float a0 = Some v -> float a1 = None ->
  exists st',
    step st line = Ok st' /\
    xblock st' = Some (xb ++ [Some v]) /\ yblock st' = yblock st.
Proof.
  intros Ht Hn Hp Hb Hc Hx F0 F1.
  rewrite (step_coordinate_line st line a0 a1 rest) by assumption.
  eexists. split; [reflexivity|].
  unfold tried. rewrite Hx, F0, F1. destruct st; cbn.
  now destruct yblock0.
Qed.

(** C4 (as the code has it): the coordinate branch is no else case.  A
    line whose first token is XTEXT, YTEXT or CLIP (none of which is a
    number for [float]) never raises, leaves the sealed blocks alone and
    appends no numeric pair; but when a block is open, the clip is on and
    the second token is PLOTTED, it appends the (None, None) sentinel to
    the open block; in every other case the open block is unchanged. *)
Theorem C4_label_and_clip_lines_in_a_block st line :
  bound st ->
  marker line = "XTEXT" \/ marker line = "YTEXT" \/ marker line = "CLIP" ->
  float (marker line) = None ->
  exists st',
    step st line = Ok st' /\ x st' = x st /\ y st' = y st /\
    (blockin st = true -> clip st = true -> second line = "PLOTTED" ->
     exists xb yb,
       xblock st = Some xb /\ yblock st = Some yb /\
       xblock st' = Some (xb ++ [None]) /\
       yblock st' = Some (yb ++ [None])) /\
    (~ (blockin st = true /\ clip st = true /\ second line = "PLOTTED") ->
     xblock st' = xblock st /\ yblock st' = yblock st).
Proof.
  intros Hb Hm Hf.
  assert (M1 : marker line <> "BLOCK")
    by (destruct Hm as [->|[->| ->]]; discriminate).
  assert (M2 : marker line <> "BLOCKEND")
    by (destruct Hm as [->|[->| ->]]; discriminate).
  destruct (step_total st line Hb) as [st' E].
  { apply scale_ok_other; destruct Hm as [->|[->| ->]]; discriminate. }
  { intros; contradiction. }
  exists st'. split; [assumption|].
  apply step_stages in E. cbv zeta in E.
  destruct E as (s1 & s2 & H1 & H2 & H3).
  apply markers_cases in H1. fold (marker line) in H1.
  destruct H1 as [[? _] | [[? _] | (_ & _ & ->)]]; try contradiction.
  apply scales_guard_frame in H3.
  destruct H3 as (_ & _ & -> & -> & -> & -> & _).
  destruct (1 <? List.length (tokens line))%nat eqn:L.
  - rewrite exec_labels_clip_data in H2. cbv zeta in H2.
    destruct (relabelled_frame (tokens line) st)
      as (RB & RX & RY & RXB & RYB & _).
    pose proof (relabelled_clip (tokens line) st) as RC.
    fold (marker line) (second line) in RC.
    rewrite RB in H2.
    destruct (blockin st) eqn:B; cbn [andb] in H2.
    + destruct (clip (relabelled (tokens line) st)) eqn:C.
      * rewrite exec_coordinates in H2.
        fold (marker line) (second line) in H2.
        destruct (String.eqb_spec (second line) "PLOTTED") as [P|P].
        -- rewrite P in RC. cbn in RC. rewrite !andb_false_r in RC.
           rewrite RXB, RYB in H2.
           destruct (xblock st) as [xb|] eqn:Hx; [|discriminate].
           destruct (yblock st) as [yb|] eqn:Hy; [|discriminate].
           injection H2 as <-. cbn. rewrite RX, RY.
           split; [reflexivity|]. split; [reflexivity|]. split.
           ++ intros _ _ _. exists xb, yb. auto.
           ++ intros Hn. exfalso. apply Hn. auto.
        -- rewrite (tried_rejected _ _ _ Hf) in H2. injection H2 as <-.
           rewrite RX, RY, RXB, RYB.
           split; [reflexivity|]. split; [reflexivity|]. split.
           ++ intros _ _ ?; contradiction.
           ++ auto.
      * injection H2 as <-. rewrite RX, RY, RXB, RYB.
        split; [reflexivity|]. split; [reflexivity|]. split.
        -- intros _ Hc Hp. exfalso.
           rewrite Hp, Hc in RC. cbn in RC. rewrite !andb_false_r in RC.
           congruence.
        -- auto.
    + injection H2 as <-. rewrite RX, RY, RXB, RYB.
      split; [reflexivity|]. split; [reflexivity|]. split.
      * discriminate.
      * auto.
  - injection H2 as <-.
    split; [reflexivity|]. split; [reflexivity|]. split.
    + rewrite (second_short _ L). discriminate.
    + auto.
Qed.

(** *** The round trip, the clip flag, the limits and the labels *)

(** C5: the six-line file XTEXT Temperature, YTEXT Energy, BLOCK,
    1.0 2.0, 2.0 3.0, BLOCKEND, read in the default flattened mode, gives
    x = [1.0, 2.0, None], y = [2.0, 3.0, None], the labels Temperature and
    Energy, and two empty limit lists; the numbers are the values of
    [float] on the tokens. *)
Theorem C5_roundtrip_example v1 v2 v3 :
  float "1.0" = Some v1 -> float "2.0" = Some v2 -> float "3.0" = Some v3 ->
  load_exp_datafile Examples.roundtrip false =
  Ok (Flat [Some v1; Some v2; None], Flat [Some v2; Some v3; None],
      "Temperature", "Energy", [], []).
Proof.
  intros H1 H2 H3. by_evaluation.
Qed.

(** C7: the clip flag is on when the loop starts; a line changes it only
    by being a CLIP ON or a CLIP OFF line, so it persists across BLOCK and
    BLOCKEND lines; while it is off, a line that neither opens a block nor
    turns the clip on leaves the open block as it was; and inside one
    block the lines CLIP OFF, 1.0 2.0, CLIP ON, 3.0 4.0 give a block that
    holds the pair (3.0, 4.0) only. *)
Theorem C7_clip_flag :
  clip initial = true
  /\ (forall st line st',
        step st line = Ok st' ->
        (marker line = "CLIP" /\ second line = "ON" -> clip st' = true)
        /\ (marker line = "CLIP" /\ second line = "OFF" ->
            clip st' = false)
        /\ (~ (marker line = "CLIP" /\
               (second line = "ON" \/ second line = "OFF")) ->
            clip st' = clip st))
  /\ (forall st line st',
        step st line = Ok st' ->
        clip st = false ->
        marker line <> "BLOCK" ->
        ~ (marker line = "CLIP" /\ second line = "ON") ->
        xblock st' = xblock st /\ yblock st' = yblock st)
  /\ (forall v3 v4,
        float "CLIP" = None ->
        float "3.0" = Some v3 -> float "4.0" = Some v4 ->
        load_exp_datafile Examples.clip_toggle true =
        Ok (ByBlock [[Some v3]], ByBlock [[Some v4]],
            EmptyString, EmptyString, [], [])).
Proof.
  split; [reflexivity|]. split; [|split].
  - intros st line st' H. rewrite (step_clip _ _ _ H).
    destruct (String.eqb_spec (marker line) "CLIP") as [M|M];
      destruct (String.eqb_spec (second line) "OFF") as [O|O];
      destruct (String.eqb_spec (second line) "ON") as [N|N];
      cbn; (split; [|split]); try tauto; try congruence;
      intros [_ E]; rewrite E in *; discriminate.
  - exact step_clip_off_blocks.
  - intros v3 v4 H0 H3 H4. by_evaluation.
Qed.

(** C8: an XSCALE line of at least three tokens appends the float values
    of its second and third tokens to xlim, and a YSCALE line does the
    same to ylim; the lines XSCALE 0 100 and YSCALE -5 5 give
    xlim = [0.0, 100.0] and ylim = [-5.0, 5.0]; a second XSCALE line
    appends two more values, so that xlim grows beyond two elements. *)
Theorem C8_scale_lines_accumulate :
  (forall st line a1 a2 rest v1 v2,
      bound st ->
      tokens line = "XSCALE" :: a1 :: a2 :: rest ->
      float a1 = Some v1 -> float a2 = Some v2 ->
      exists st',
        step st line = Ok st' /\
        xlim st' = xlim st ++ [v1; v2] /\ ylim st' = ylim st)
  /\ (forall st line a1 a2 rest v1 v2,
        bound st ->
        tokens line = "YSCALE" :: a1 :: a2 :: rest ->
        float a1 = Some v1 -> float a2 = Some v2 ->
        exists st',
          step st line = Ok st' /\
          ylim st' = ylim st ++ [v1; v2] /\ xlim st' = xlim st)
  /\ (forall v0 v100 v5n v5,
        float "0" = Some v0 -> float "100" = Some v100 ->
        float "-5" = Some v5n -> float "5" = Some v5 ->
        load_exp_datafile Examples.scales_once false =
        Ok (Flat [], Flat [], EmptyString, EmptyString,
            [v0; v100], [v5n; v5]))
  /\ (forall st l1 l2 a1 a2 r1 b1 b2 r2 v1 v2 w1 w2,
        bound st ->
        tokens l1 = "XSCALE" :: a1 :: a2 :: r1 ->
        tokens l2 = "XSCALE" :: b1 :: b2 :: r2 ->
        float a1 = Some v1 -> float a2 = Some v2 ->
        float b1 = Some w1 -> float b2 = Some w2 ->
        exists st',
          run_from st [l1; l2] = Ok st' /\
          xlim st' = xlim st ++ [v1; v2; w1; w2]).
Proof.
  split; [exact step_xscale|]. split; [exact step_yscale|]. split.
  - intros v0 v100 v5n v5 H0 H100 H5n H5. by_evaluation.
  - intros st l1 l2 a1 a2 r1 b1 b2 r2 v1 v2 w1 w2 Hb T1 T2 F1 F2 G1 G2.
    destruct (step_xscale st l1 _ _ _ _ _ Hb T1 F1 F2) as (s & E1 & X1 & _).
    pose proof (step_keeps_bound _ _ _ E1 Hb) as Hb'.
    destruct (step_xscale s l2 _ _ _ _ _ Hb' T2 G1 G2) as (s' & E2 & X2 & _).
    exists s'. rewrite run_from_cons, E1, run_from_cons, E2, run_from_nil.
    split; [reflexivity|]. rewrite X2, X1, <- app_assoc. reflexivity.
Qed.

(** C10: the metadata markers act in every state the loop reaches,
    whatever the block and clip state: an XTEXT or YTEXT line of at least
    two tokens sets the label to the remaining tokens joined by a blank, a
    CLIP ON or CLIP OFF line sets the clip flag, and an XSCALE or YSCALE
    line of at least three tokens with numeric second and third tokens
    appends their values to the limits. *)
Theorem C10_metadata_in_any_state st line :
  bound st ->
  (forall a1 rest,
      tokens line = "XTEXT" :: a1 :: rest ->
      exists st',
        step st line = Ok st' /\ xlab st' = PyStr.join " " (a1 :: rest))
  /\ (forall a1 rest,
        tokens line = "YTEXT" :: a1 :: rest ->
        exists st',
          step st line = Ok st' /\ ylab st' = PyStr.join " " (a1 :: rest))
  /\ (forall rest,
        tokens line = "CLIP" :: "ON" :: rest ->
        exists st', step st line = Ok st' /\ clip st' = true)
  /\ (forall rest,
        tokens line = "CLIP" :: "OFF" :: rest ->
        exists st', step st line = Ok st' /\ clip st' = false)
  /\ (forall a1 a2 rest v1 v2,
        tokens line = "XSCALE" :: a1 :: a2 :: rest ->
        float a1 = Some v1 -> float a2 = Some v2 ->
        exists st',
          step st line = Ok st' /\ xlim st' = xlim st ++ [v1; v2])
  /\ (forall a1 a2 rest v1 v2,
        tokens line = "YSCALE" :: a1 :: a2 :: rest ->
        float a1 = Some v1 -> float a2 = Some v2 ->
        exists st',
          step st line = Ok st' /\ ylim st' = ylim st ++ [v1; v2]).
Proof.
  intros Hb. repeat apply conj.
  - intros a1 rest Ht.
    destruct (step_label_total st line _ _ _ Hb Ht) as (st' & E & _ & X & _);
      [auto|].
    exists st'. split; [assumption|].
    rewrite X, relabelled_xlab, Ht. reflexivity.
  - intros a1 rest Ht.
    destruct (step_label_total st line _ _ _ Hb Ht) as (st' & E & _ & _ & Y);
      [auto|].
    exists st'. split; [assumption|].
    rewrite Y, relabelled_ylab, Ht. reflexivity.
  - intros rest Ht.
    destruct (step_label_total st line _ _ _ Hb Ht) as (st' & E & C & _);
      [auto|].
    exists st'. split; [assumption|].
    rewrite C, relabelled_clip, Ht. reflexivity.
  - intros rest Ht.
    destruct (step_label_total st line _ _ _ Hb Ht) as (st' & E & C & _);
      [auto|].
    exists st'. split; [assumption|].
    rewrite C, relabelled_clip, Ht. reflexivity.
  - intros a1 a2 rest v1 v2 Ht F1 F2.
    destruct (step_xscale st line _ _ _ _ _ Hb Ht F1 F2) as (st' & E & X & _).
    eauto.
  - intros a1 a2 rest v1 v2 Ht F1 F2.
    destruct (step_yscale st line _ _ _ _ _ Hb Ht F1 F2) as (st' & E & Y & _).
    eauto.
Qed.

(** *** The store machine and the reader agree *)

Lemma update_length a f (h : store) :
  List.length (update a f h) = List.length h.
Proof.
  revert a. induction h as [|l h IH]; intros [|a]; cbn; auto.
Qed.

Lemma deref_update_same a f (h : store) :
  a < List.length h -> deref (update a f h) a = f (deref h a).
Proof.
  unfold deref. revert a. induction h as [|l h IH]; intros [|a] L;
    cbn in *; try lia; auto. apply IH. lia.
Qed.

Lemma deref_update_other a b f (h : store) :
  a <> b -> deref (update a f h) b = deref h b.
Proof.
  unfold deref. revert a b.
  induction h as [|l h IH]; intros [|a] [|b] N; cbn; auto; try congruence.
Qed.

Lemma map_deref_update a f (h : store) l :
  ~ In a l -> map (deref (update a f h)) l = map (deref h) l.
Proof.
  intros N. apply map_ext_in. intros b Hb.
  apply deref_update_other. congruence.
Qed.

Lemma deref_app (h h' : store) a :
  a < List.length h -> deref (h ++ h') a = deref h a.
Proof. intros L. unfold deref. now apply app_nth1. Qed.

Lemma map_deref_app (h h' : store) l :
  Forall (fun a => a < List.length h) l ->
  map (deref (h ++ h')) l = map (deref h) l.
Proof.
  intros Hl. apply map_ext_in. intros a Ha. apply deref_app.
  rewrite Forall_forall in Hl. auto.
Qed.

Lemma deref_new (h h' : store) : deref (h ++ [] :: h') (List.length h) = [].
Proof. unfold deref. now rewrite nth_middle. Qed.

Lemma fresh_not_in (h : store) l :
  Forall (fun a => a < List.length h) l -> ~ In (List.length h) l.
Proof.
  intros Hl Hin. rewrite Forall_forall in Hl. specialize (Hl _ Hin). lia.
Qed.

Lemma exec_block_markers_s arr v h :
  Stmt.exec (block_markers_s arr) (v, h) =
  if at_ arr 0 =? "BLOCK" then
    Ok (set_blockin true
          (set_yblock (S (List.length h)) (set_xblock (List.length h) v)),
        h ++ [[]; []])
  else if at_ arr 0 =? "BLOCKEND" then
    match xblock v, yblock v with
    | Some a, Some b =>
        Ok (set_blockin false (set_y (y v ++ [b]) (set_x (x v ++ [a]) v)), h)
    | _, _ => Raise UnboundLocalError
    end
  else Ok (v, h).
Proof.
  destruct v as [bi cl xs ys xb yb xl yl xm ym].
  destruct (String.eqb_spec (at_ arr 0) "BLOCK") as [E|E].
  - stmt_s. rewrite E. cbn. rewrite length_app, <- app_assoc. cbn.
    now rewrite Nat.add_1_r.
  - stmt_s. rewrite (proj2 (String.eqb_neq _ _) E).
    destruct (at_ arr 0 =? "BLOCKEND"); [|reflexivity].
    destruct xb, yb; reflexivity.
Qed.

Lemma exec_coordinates_s arr v h a b :
  xblock v = Some a -> yblock v = Some b ->
  Stmt.exec (coordinates_s arr) (v, h) =
  if at_ arr 1 =? "PLOTTED" then
    Ok (v, update b (fun l => l ++ [None])
             (update a (fun l => l ++ [None]) h))
  else
    Ok (v, match float (at_ arr 0) with
           | Some p =>
               let h1 := update a (fun l => l ++ [Some p]) h in
               match float (at_ arr 1) with
               | Some q => update b (fun l => l ++ [Some q]) h1
               | None => h1
               end
           | None => h
           end).
Proof.
  destruct v as [bi cl xs ys xb yb xl yl xm ym]. cbn. intros -> ->.
  stmt_s. destruct (at_ arr 1 =? "PLOTTED"); [reflexivity|].
  destruct (float (at_ arr 0)); [|reflexivity].
  destruct (float (at_ arr 1)); reflexivity.
Qed.

Lemma exec_labels_clip_data_s arr v h :
  Stmt.exec (labels_clip_data_s arr) (v, h) =
  let v' := relabelled arr v in
  if blockin v' && clip v' then Stmt.exec (coordinates_s arr) (v', h)
  else Ok (v', h).
Proof.
  destruct v as [bi cl xs ys xb yb xl yl xm ym].
  unfold labels_clip_data_s, relabelled.
  destruct (at_ arr 0 =? "XTEXT"), (at_ arr 0 =? "YTEXT"),
    (at_ arr 0 =? "CLIP"), (at_ arr 1 =? "ON"), (at_ arr 1 =? "OFF"),
    bi, cl; cbn -[coordinates_s];
    try reflexivity;
    match goal with
    | |- context [coordinates_s arr ?s] =>
        unfold Stmt.exec;
        cbv [Stmt.bind Stmt.when Stmt.modify Stmt.gets Stmt.ret on_vars];
        cbn -[coordinates_s];
        destruct (coordinates_s arr s) as [s' [[]|e]]
    end; try reflexivity.
Qed.

Lemma exec_scales_s arr v h :
  Stmt.exec (scales_s arr) (v, h) =
  if at_ arr 0 =? "XSCALE" then
    match float (at_ arr 1), float (at_ arr 2) with
    | Some v1, Some v2 => Ok (set_xlim (xlim v ++ [v1; v2]) v, h)
    | _, _ => Raise ValueError
    end
  else if at_ arr 0 =? "YSCALE" then
    match float (at_ arr 1), float (at_ arr 2) with
    | Some v1, Some v2 => Ok (set_ylim (ylim v ++ [v1; v2]) v, h)
    | _, _ => Raise ValueError
    end
  else Ok (v, h).
Proof.
  destruct v as [bi cl xs ys xb yb xl yl xm ym].
  destruct (String.eqb_spec (at_ arr 0) "XSCALE") as [E|E].
  - stmt_s. rewrite E. cbn.
    destruct (float (at_ arr 1)); [|reflexivity].
    destruct (float (at_ arr 2)); [|reflexivity].
    now rewrite <- app_assoc.
  - stmt_s. rewrite (proj2 (String.eqb_neq _ _) E).
    destruct (at_ arr 0 =? "YSCALE"); [|reflexivity].
    destruct (float (at_ arr 1)); [|reflexivity].
    destruct (float (at_ arr 2)); [|reflexivity].
    now rewrite <- app_assoc.
Qed.

Lemma simulates_bind ms mr ks kr :
  simulates ms mr -> simulates ks kr ->
  simulates (Stmt.bind ms (fun _ => ks)) (Stmt.bind mr (fun _ => kr)).
Proof.
  intros H1 H2 m Hm. specialize (H1 m Hm).
  unfold Stmt.exec, Stmt.bind in *.
  destruct (ms m) as [m1 [[]|e]]; destruct (mr (contents m)) as [s1 [[]|e']];
    try (destruct H1; discriminate); try discriminate.
  - destruct H1 as [S1 [= ->]]. apply (H2 m1 S1).
  - assumption.
Qed.

Lemma simulates_when c ms mr :
  simulates ms mr -> simulates (Stmt.when c ms) (Stmt.when c mr).
Proof.
  intros H. destruct c; [exact H|]. intros m Hm. cbn. auto.
Qed.

Lemma contents_relabelled arr v h :
  contents (relabelled arr v, h) = relabelled arr (contents (v, h)).
Proof.
  destruct v. unfold relabelled.
  destruct (at_ arr 0 =? "XTEXT"), (at_ arr 0 =? "YTEXT"),
    (at_ arr 0 =? "CLIP"), (at_ arr 1 =? "ON"), (at_ arr 1 =? "OFF");
    reflexivity.
Qed.

Lemma sound_relabelled arr v h : sound (v, h) -> sound (relabelled arr v, h).
Proof.
  destruct v. unfold relabelled.
  destruct (at_ arr 0 =? "XTEXT"), (at_ arr 0 =? "YTEXT"),
    (at_ arr 0 =? "CLIP"), (at_ arr 1 =? "ON"), (at_ arr 1 =? "OFF");
    exact (fun H => H).
Qed.

Lemma sound_update a f v h : sound (v, h) -> sound (v, update a f h).
Proof. unfold sound. now rewrite update_length. Qed.

(** Appending to the x list of the open block is seen through [xblock]
    and nowhere else. *)
Lemma contents_update_xblock a b f v h :
  sound (v, h) -> blockin v = true ->
  xblock v = Some a -> yblock v = Some b ->
  contents (v, update a f h) = set_xblock (f (deref h a)) (contents (v, h)).
Proof.
  intros (_ & _ & Hx & _ & Hopen) Hb Ha Hy.
  destruct (Hopen Hb) as (a' & b' & Ea & Eb & N & Nx & Ny & _).
  assert (a' = a) by congruence. assert (b' = b) by congruence. subst a' b'.
  destruct v as [bi cl xs ys xb yb xl yl xm ym]. cbn in *. subst xb yb.
  cbn. rewrite !map_deref_update by assumption.
  rewrite deref_update_same by auto.
  rewrite deref_update_other by assumption. reflexivity.
Qed.

Lemma contents_update_yblock a b f v h :
  sound (v, h) -> blockin v = true ->
  xblock v = Some a -> yblock v = Some b ->
  contents (v, update b f h) = set_yblock (f (deref h b)) (contents (v, h)).
Proof.
  intros (_ & _ & _ & Hy & Hopen) Hb Ha Hyb.
  destruct (Hopen Hb) as (a' & b' & Ea & Eb & N & _ & _ & Nx & Ny).
  assert (a' = a) by congruence. assert (b' = b) by congruence. subst a' b'.
  destruct v as [bi cl xs ys xb yb xl yl xm ym]. cbn in *. subst xb yb.
  cbn. rewrite !map_deref_update by assumption.
  rewrite deref_update_same by auto.
  rewrite deref_update_other by congruence. reflexivity.
Qed.

Lemma simulates_block_markers arr :
  simulates (block_markers_s arr) (block_markers arr).
Proof.
  intros [v h] Hm. rewrite exec_block_markers_s, exec_block_markers.
  destruct (at_ arr 0 =? "BLOCK").
  - destruct Hm as (Hx & Hy & Hxb & Hyb & _).
    destruct v as [bi cl xs ys xb yb xl yl xm ym]. cbn in *. split.
    + rewrite length_app. cbn. repeat apply conj.
      * eapply Forall_impl; [|exact Hx]. cbn. intros; lia.
      * eapply Forall_impl; [|exact Hy]. cbn. intros; lia.
      * intros a [= <-]. lia.
      * intros b [= <-]. lia.
      * intros _. exists (List.length h), (S (List.length h)).
        repeat apply conj; auto; try (apply fresh_not_in; assumption);
          intros Hin.
        -- rewrite Forall_forall in Hx. specialize (Hx _ Hin). lia.
        -- rewrite Forall_forall in Hy. specialize (Hy _ Hin). lia.
    + unfold opened. cbn. rewrite !map_deref_app by assumption.
      rewrite deref_new.
      replace (h ++ [[]; []]) with ((h ++ [[]]) ++ [] :: []) by
        now rewrite <- app_assoc.
      replace (S (List.length h)) with (List.length (h ++ [[]]))
        by (rewrite length_app; cbn; lia).
      now rewrite deref_new.
  - destruct (at_ arr 0 =? "BLOCKEND"); [|auto].
    destruct v as [bi cl xs ys xb yb xl yl xm ym]. cbn in *.
    destruct xb as [a|]; [|reflexivity].
    destruct yb as [b|]; [|reflexivity].
    destruct Hm as (Hx & Hy & Hxb & Hyb & _). cbn in *. split.
    + repeat apply conj; auto.
      * apply Forall_app. split; [assumption|]. constructor; auto.
      * apply Forall_app. split; [assumption|]. constructor; auto.
      * discriminate.
    + unfold sealed. cbn. now rewrite !map_app.
Qed.

Lemma simulates_coordinates arr v h :
  sound (v, h) -> blockin v = true ->
  match Stmt.exec (coordinates_s arr) (v, h) with
  | Ok m' =>
      sound m' /\
      Stmt.exec (coordinates arr) (contents (v, h)) = Ok (contents m')
  | Raise e => Stmt.exec (coordinates arr) (contents (v, h)) = Raise e
  end.
Proof.
  intros Hm Hb.
  destruct Hm as (Hx & Hy & Hxb & Hyb & Hopen).
  destruct (Hopen Hb) as (a & b & Ea & Eb & N & Nx & Ny & Mx & My).
  assert (Hm : sound (v, h)) by (repeat apply conj; assumption).
  assert (Xc : xblock (contents (v, h)) = Some (deref h a))
    by (cbn; now rewrite Ea).
  assert (Yc : yblock (contents (v, h)) = Some (deref h b))
    by (cbn; now rewrite Eb).
  rewrite (exec_coordinates_s arr v h a b Ea Eb), exec_coordinates.
  destruct (at_ arr 1 =? "PLOTTED").
  - split; [now do 2 apply sound_update|].
    rewrite Xc, Yc.
    rewrite (contents_update_yblock a b) by (auto using sound_update).
    rewrite (contents_update_xblock a b) by auto.
    now rewrite deref_update_other by assumption.
  - unfold tried. rewrite Xc, Yc.
    destruct (float (at_ arr 0)) as [p|]; [|auto].
    destruct (float (at_ arr 1)) as [q|]; cbv zeta.
    + split; [now do 2 apply sound_update|].
      rewrite (contents_update_yblock a b) by (auto using sound_update).
      rewrite (contents_update_xblock a b) by auto.
      now rewrite deref_update_other by assumption.
    + split; [now apply sound_update|].
      now rewrite (contents_update_xblock a b) by auto.
Qed.

Lemma simulates_labels_clip_data arr :
  simulates (labels_clip_data_s arr) (labels_clip_data arr).
Proof.
  intros [v h] Hm.
  rewrite exec_labels_clip_data_s, exec_labels_clip_data. cbv zeta.
  rewrite <- contents_relabelled.
  apply (sound_relabelled arr) in Hm.
  assert (B : blockin (contents (relabelled arr v, h))
              = blockin (relabelled arr v)) by reflexivity.
  assert (C : clip (contents (relabelled arr v, h))
              = clip (relabelled arr v)) by reflexivity.
  rewrite B, C.
  destruct (blockin (relabelled arr v)) eqn:Hb; cbn [andb]; [|auto].
  destruct (clip (relabelled arr v)); [|auto].
  now apply simulates_coordinates.
Qed.

Lemma simulates_scales arr : simulates (scales_s arr) (scales arr).
Proof.
  intros [v h] Hm. rewrite exec_scales_s, exec_scales.
  destruct v as [bi cl xs ys xb yb xl yl xm ym].
  destruct (at_ arr 0 =? "XSCALE"), (at_ arr 0 =? "YSCALE"),
    (float (at_ arr 1)), (float (at_ arr 2)); cbn; auto.
Qed.

Lemma simulates_process_line line :
  simulates (process_line_s line) (process_line line).
Proof.
  unfold process_line_s, process_line. cbv zeta.
  repeat apply simulates_bind; apply simulates_when.
  - apply simulates_block_markers.
  - apply simulates_labels_clip_data.
  - apply simulates_scales.
Qed.

Lemma simulates_process_lines f :
  simulates (process_lines_s f) (process_lines f).
Proof.
  induction f as [|line f IH]; cbn [process_lines_s process_lines].
  - intros m Hm. cbn. auto.
  - apply simulates_bind; [apply simulates_process_line | exact IH].
Qed.

Lemma initial_sound : sound initial_s.
Proof.
  cbn. repeat apply conj; try constructor; discriminate.
Qed.

(** X16: the reader loses nothing by taking lists for values: run on the same
    lines, the store machine, where the sealed blocks and the block
    variables share list objects, ends with the same exception or returns
    the same tuple. *)
Theorem store_machine_agrees f blocks :
  load_exp_datafile_s f blocks = load_exp_datafile f blocks.
Proof.
  unfold load_exp_datafile_s, load_exp_datafile, run_s, run, run_from.
  pose proof (simulates_process_lines f initial_s initial_sound) as H.
  change (contents initial_s) with initial in H.
  destruct (Stmt.exec (process_lines_s f) initial_s) as [m|e].
  - destruct H as [_ ->]. reflexivity.
  - now rewrite H.
Qed.

(** *** Tokens and labels *)

Lemma split_space c s :
  PyStr.isspace c = true -> PyStr.split (String c s) = PyStr.split s.
Proof.
  intros Hc. unfold PyStr.split. cbn [PyStr.split_from].
  destruct (PyStr.split_from s) as [w ws]. rewrite Hc. reflexivity.
Qed.

Lemma split_lstrip drop s :
  (forall c, drop c = true -> PyStr.isspace c = true) ->
  PyStr.split (PyStr.lstrip drop s) = PyStr.split s.
Proof.
  intros Hd. induction s as [|c s IH]; [reflexivity|].
  cbn [PyStr.lstrip]. destruct (drop c) eqn:D; [|reflexivity].
  rewrite IH. symmetry. apply split_space. auto.
Qed.

Lemma split_from_rstrip drop s :
  (forall c, drop c = true -> PyStr.isspace c = true) ->
  PyStr.split_from (PyStr.rstrip drop s) = PyStr.split_from s.
Proof.
  intros Hd. induction s as [|c s IH]; [reflexivity|].
  cbn [PyStr.rstrip].
  destruct (PyStr.rstrip drop s) as [|c' r] eqn:R.
  - cbn [PyStr.split_from] in *. rewrite <- IH.
    destruct (drop c) eqn:D.
    + now rewrite (Hd c D).
    + reflexivity.
  - cbn [PyStr.split_from] in *. now rewrite IH.
Qed.

Lemma strip_chars_space c :
  strip_chars c = true -> PyStr.isspace c = true.
Proof.
  unfold strip_chars. intros H.
  apply orb_prop in H. destruct H as [H|H];
    [apply orb_prop in H; destruct H as [H|H]|];
    apply Ascii.eqb_eq in H; subst c; reflexivity.
Qed.

(** X1: [line.strip(' \t\n')] does nothing for the tokens: they are those
    of [line.split()] on the line as it was read. *)
Theorem tokens_without_strip line : tokens line = PyStr.split line.
Proof.
  unfold tokens, PyStr.strip, PyStr.split.
  rewrite (split_from_rstrip _ _ strip_chars_space).
  apply (split_lstrip _ _ strip_chars_space).
Qed.

Lemma push_word_words w ws :
  no_space w = true -> Forall word ws -> Forall word (PyStr.push_word w ws).
Proof.
  intros Hw Hws. destruct w; [assumption|].
  cbn. constructor; [split; [discriminate|assumption]|assumption].
Qed.

Lemma split_from_words s :
  no_space (fst (PyStr.split_from s)) = true
  /\ Forall word (snd (PyStr.split_from s)).
Proof.
  induction s as [|c s [IHw IHws]]; [cbn; auto|].
  cbn [PyStr.split_from]. destruct (PyStr.split_from s) as [w ws].
  cbn [fst snd] in *. destruct (PyStr.isspace c) eqn:C; cbn [fst snd].
  - split; [reflexivity|]. now apply push_word_words.
  - split; [|assumption]. cbn. now rewrite C.
Qed.

Lemma split_words s : Forall word (PyStr.split s).
Proof.
  unfold PyStr.split. destruct (split_from_words s) as [Hw Hws].
  destruct (PyStr.split_from s) as [w ws]. now apply push_word_words.
Qed.

Lemma split_from_app t s :
  no_space t = true ->
  PyStr.split_from (t ++ s) =
  ((t ++ fst (PyStr.split_from s))%string, snd (PyStr.split_from s)).
Proof.
  induction t as [|c t IH]; intros Ht.
  - cbn. now destruct (PyStr.split_from s).
  - cbn in Ht. apply andb_prop in Ht. destruct Ht as [Hc Ht].
    apply negb_true_iff in Hc.
    cbn [String.append PyStr.split_from]. rewrite (IH Ht), Hc. reflexivity.
Qed.

Lemma split_word t : word t -> PyStr.split_from t = (t, []).
Proof.
  intros [_ Ht]. pose proof (split_from_app t EmptyString Ht) as H.
  cbn in H. unfold String.append in *. fold String.append in *.
  replace (t ++ "")%string with t in H; [assumption|].
  clear. induction t; cbn; congruence.
Qed.

Lemma split_join l : Forall word l -> PyStr.split (PyStr.join " " l) = l.
Proof.
  unfold PyStr.join, PyStr.split.
  induction 1 as [|t l Ht Hl IH]; [reflexivity|].
  cbn [String.concat]. destruct l as [|t' l].
  - rewrite (split_word _ Ht). destruct Ht as [Hne _].
    destruct t; [congruence|reflexivity].
  - rewrite split_from_app by apply Ht.
    set (r := String.concat " " (t' :: l)) in *.
    cbn [String.append PyStr.split_from].
    change (PyStr.isspace " ") with true. cbv iota.
    destruct (PyStr.split_from r) as [w ws]. cbn [fst snd].
    rewrite IH. destruct Ht as [Hne _].
    replace (t ++ "")%string with t by (clear; induction t; cbn; congruence).
    destruct t; [congruence|reflexivity].
Qed.

Lemma tokens_words line : Forall word (tokens line).
Proof. apply split_words. Qed.


(** *** Lines that start with no marker *)

Lemma not_marker line :
  ~ In (marker line) markers ->
  (marker line =? "BLOCK") = false /\ (marker line =? "BLOCKEND") = false
  /\ (marker line =? "XTEXT") = false /\ (marker line =? "YTEXT") = false
  /\ (marker line =? "CLIP") = false /\ (marker line =? "XSCALE") = false
  /\ (marker line =? "YSCALE") = false.
Proof.
  intros H. cbn [In markers] in H.
  repeat apply conj; apply String.eqb_neq; intros E; apply H;
    rewrite E; tauto.
Qed.

Lemma step_plain_line st line :
  ~ In (marker line) markers ->
  step st line =
  if (1 <? List.length (tokens line))%nat && blockin st && clip st
  then Stmt.exec (coordinates (tokens line)) st
  else Ok st.
Proof.
  intros H. destruct (not_marker _ H) as (N1 & N2 & N3 & N4 & N5 & N6 & N7).
  unfold marker in *.
  assert (R : relabelled (tokens line) st = st).
  { apply relabelled_other; apply String.eqb_neq; assumption. }
  assert (S3 : forall s,
             (if (2 <? List.length (tokens line))%nat
              then Stmt.exec (scales (tokens line)) s else Ok s) = Ok s).
  { intros s. rewrite exec_scales, N6, N7. now destruct (2 <? _)%nat. }
  rewrite step_eq. cbv zeta.
  rewrite exec_block_markers, N1, N2.
  replace (if (0 <? List.length (tokens line))%nat then Ok st else Ok st)
    with (Ok st) by now destruct (0 <? _)%nat.
  rewrite exec_labels_clip_data. cbv zeta. rewrite R.
  destruct (1 <? List.length (tokens line))%nat; cbn [andb].
  - destruct (blockin st && clip st).
    + destruct (Stmt.exec (coordinates (tokens line)) st);
        [apply S3 | reflexivity].
    + apply S3.
  - apply S3.
Qed.

(** X3: outside a block, a line that starts with none of the seven markers
    (a blank line, a comment, a stray coordinate line) changes nothing and
    never raises. *)
Theorem plain_line_outside_block_is_ignored st line :
  blockin st = false ->
  ~ In (marker line) markers ->
  step st line = Ok st.
Proof.
  intros Hb Hm. rewrite (step_plain_line _ _ Hm), Hb.
  now rewrite andb_false_r.
Qed.

(** A line that starts with no marker touches the open block only. *)
Lemma step_plain_line_frame st line :
  bound st ->
  ~ In (marker line) markers ->
  exists st',
    step st line = Ok st' /\ same_outside_block st st'
    /\ blockin st' = blockin st /\ bound st'.
Proof.
  intros Hb Hm. rewrite (step_plain_line _ _ Hm).
  destruct ((1 <? List.length (tokens line))%nat && blockin st && clip st)
    eqn:G.
  - apply andb_prop in G. destruct G as [G _].
    apply andb_prop in G. destruct G as [_ B].
    destruct (Stmt.exec (coordinates (tokens line)) st) as [st'|e] eqn:E.
    + apply coordinates_frame in E.
      destruct E as (B' & C & X & Y & XL & YL & XM & YM & NX & NY & _).
      exists st'. split; [reflexivity|].
      split; [unfold same_outside_block; repeat apply conj; congruence|].
      split; [assumption|].
      intros _. destruct (Hb B). auto.
    + apply coordinates_raise in E. destruct (Hb B). tauto.
  - exists st. split; [reflexivity|].
    split; [unfold same_outside_block; repeat apply conj; reflexivity|].
    auto.
Qed.

Lemma run_plain_lines_frame d :
  Forall (fun l => ~ In (marker l) markers) d ->
  forall st,
    bound st ->
    exists st', run_from st d = Ok st' /\ same_outside_block st st'.
Proof.
  induction 1 as [|line d Hm Hd IH]; intros st Hb.
  - exists st. split; [reflexivity|].
    unfold same_outside_block; repeat apply conj; reflexivity.
  - destruct (step_plain_line_frame st line Hb Hm) as (s & E & S & _ & Hb').
    destruct (IH s Hb') as (st' & R & S').
    exists st'. rewrite run_from_cons, E. split; [assumption|].
    unfold same_outside_block in *.
    destruct S as (? & ? & ? & ? & ? & ? & ?).
    destruct S' as (? & ? & ? & ? & ? & ? & ?).
    repeat apply conj; congruence.
Qed.

Lemma step_block_line s1 s2 line :
  same_outside_block s1 s2 ->
  marker line = "BLOCK" ->
  step s1 line = step s2 line.
Proof.
  intros S Hm.
  assert (L : (0 <? List.length (tokens line))%nat = true).
  { destruct (marker_tokens _ _ Hm) as [rest Ht]; [discriminate|].
    now rewrite Ht. }
  rewrite !step_eq. cbv zeta. rewrite !exec_block_markers, L.
  fold (marker line). rewrite Hm. cbn [String.eqb Ascii.eqb Bool.eqb].
  replace (opened s2) with (opened s1); [reflexivity|].
  destruct s1, s2. unfold same_outside_block in S. cbn in S.
  destruct S as (? & ? & ? & ? & ? & ? & ?). subst. reflexivity.
Qed.

(** X4: what stands between an unfinished block and the next BLOCK line is
    lost.  Lines that start with no marker and come right before a BLOCK
    line have no effect on what the call returns or raises, whatever mode
    and whatever came before them. *)
Theorem lines_before_block_are_dropped pre d b post blocks :
  Forall (fun l => ~ In (marker l) markers) d ->
  marker b = "BLOCK" ->
  load_exp_datafile (pre ++ d ++ b :: post) blocks =
  load_exp_datafile (pre ++ b :: post) blocks.
Proof.
  intros Hd Hb. unfold load_exp_datafile, run.
  rewrite !run_from_app.
  destruct (run_from initial pre) as [st|e] eqn:R; [|reflexivity].
  pose proof (run_bound _ _ R) as B.
  destruct (run_plain_lines_frame d Hd st B) as (st' & R' & S).
  rewrite run_from_app, R', !run_from_cons.
  now rewrite (step_block_line st st' b S Hb).
Qed.

(** *** The sealed blocks, the labels and the limits of a whole stream *)

Lemma step_appends st line st' :
  step st line = Ok st' ->
  exists xs' ys',
    x st' = x st ++ xs' /\ y st' = y st ++ ys'
    /\ List.length xs' = count_blockend [line]
    /\ List.length ys' = count_blockend [line].
Proof.
  intros H. apply step_ok_inv in H.
  destruct H as (s1 & C & _ & -> & -> & _).
  unfold count_blockend. cbn [filter].
  destruct C as [[E ->] | [[E (xb & yb & _ & _ & ->)] | (E1 & E2 & ->)]].
  - rewrite E. exists [], []. cbn. now rewrite !app_nil_r.
  - rewrite E. exists [xb], [yb]. cbn. auto.
  - apply String.eqb_neq in E2. rewrite E2.
    exists [], []. cbn. now rewrite !app_nil_r.
Qed.

Lemma count_blockend_cons line g :
  count_blockend (line :: g) = count_blockend [line] + count_blockend g.
Proof.
  unfold count_blockend. cbn [filter].
  now destruct (marker line =? "BLOCKEND").
Qed.

Lemma run_from_appends g :
  forall st st',
    run_from st g = Ok st' ->
    exists xs' ys',
      x st' = x st ++ xs' /\ y st' = y st ++ ys'
      /\ List.length xs' = count_blockend g
      /\ List.length ys' = count_blockend g.
Proof.
  induction g as [|line g IH]; intros st st'.
  - intros [= <-]. exists [], []. cbn. now rewrite !app_nil_r.
  - rewrite run_from_cons. destruct (step st line) as [s|e] eqn:E;
      [|discriminate].
    intros R. destruct (step_appends _ _ _ E) as (xa & ya & X1 & Y1 & L1 & L1').
    destruct (IH _ _ R) as (xb & yb & X2 & Y2 & L2 & L2').
    exists (xa ++ xb), (ya ++ yb).
    rewrite X2, Y2, X1, Y1, <- !app_assoc, !length_app, count_blockend_cons.
    repeat apply conj; auto.
Qed.

(** X5: the sealed blocks only grow.  When the lines [f ++ g] load, the
    lines [f] alone load too, the blocks of [f] are the first blocks of
    [f ++ g], and [g] adds exactly one block for each of its BLOCKEND
    lines; so the number of blocks returned is the number of BLOCKEND
    lines of the file, however the markers are balanced. *)
Theorem blocks_grow_by_blockend_lines f g xs' ys' xl' yl' xm' ym' :
  load_exp_datafile (f ++ g) true =
  Ok (ByBlock xs', ByBlock ys', xl', yl', xm', ym') ->
  exists xs ys xl yl xm ym more_x more_y,
    load_exp_datafile f true = Ok (ByBlock xs, ByBlock ys, xl, yl, xm, ym)
    /\ xs' = xs ++ more_x /\ ys' = ys ++ more_y
    /\ List.length more_x = count_blockend g
    /\ List.length more_y = count_blockend g
    /\ List.length xs' = count_blockend (f ++ g).
Proof.
  unfold load_exp_datafile, run. rewrite run_from_app.
  destruct (run_from initial f) as [st|e] eqn:R; [|discriminate].
  destruct (run_from st g) as [st'|e] eqn:R'; [|discriminate].
  cbn. intros [= <- <- _ _ _ _].
  destruct (run_from_appends _ _ _ R') as (mx & my & X & Y & L & L').
  destruct (run_from_appends _ _ _ R) as (x0 & y0 & X0 & _ & L0 & _).
  cbn in X0. subst x0.
  exists (x st), (y st), (xlab st), (ylab st), (xlim st), (ylim st), mx, my.
  repeat apply conj; auto.
  rewrite X, length_app, L0, L. unfold count_blockend.
  now rewrite filter_app, length_app.
Qed.

Lemma step_labels st line st' :
  step st line = Ok st' ->
  xlab st' = last_label "XTEXT" [line] (xlab st)
  /\ ylab st' = last_label "YTEXT" [line] (ylab st).
Proof.
  intros H. apply step_meta in H. cbv zeta in H.
  destruct H as (_ & -> & ->). cbn [last_label]. unfold marker.
  destruct (1 <? List.length (tokens line))%nat; cbn [andb].
  - now rewrite relabelled_xlab, relabelled_ylab.
  - auto.
Qed.

Lemma run_from_labels f :
  forall st st',
    run_from st f = Ok st' ->
    xlab st' = last_label "XTEXT" f (xlab st)
    /\ ylab st' = last_label "YTEXT" f (ylab st).
Proof.
  induction f as [|line f IH]; intros st st'.
  - intros [= <-]. auto.
  - rewrite run_from_cons. destruct (step st line) as [s|e] eqn:E;
      [|discriminate].
    intros R. destruct (IH _ _ R) as [-> ->].
    destruct (step_labels _ _ _ E) as [-> ->]. auto.
Qed.

(** X6: the returned labels are read off the lines alone, whatever the
    blocks and the clip flag do: each is the text of the last XTEXT (or
    YTEXT) line that has a second token, and the empty string when there
    is no such line. *)
Theorem labels_are_the_last_ones f blocks cx cy xl yl xm ym :
  load_exp_datafile f blocks = Ok (cx, cy, xl, yl, xm, ym) ->
  xl = last_label "XTEXT" f EmptyString
  /\ yl = last_label "YTEXT" f EmptyString.
Proof.
  unfold load_exp_datafile, run.
  destruct (run_from initial f) as [st|e] eqn:R; [|discriminate].
  destruct (run_from_labels _ _ _ R) as [X Y]. cbn in X, Y.
  unfold finish. destruct (negb blocks);
    [destruct (flatten (x st) (y st))|]; intros [= _ _ <- <- _ _]; auto.
Qed.

Lemma step_limits st line st' :
  step st line = Ok st' ->
  xlim st' = xlim st ++ scale_pair "XSCALE" line
  /\ ylim st' = ylim st ++ scale_pair "YSCALE" line
  /\ List.length (scale_pair "XSCALE" line) =
     2 * List.length (filter (fun l => (2 <? List.length (tokens l))%nat
                                       && (marker l =? "XSCALE")) [line])
  /\ List.length (scale_pair "YSCALE" line) =
     2 * List.length (filter (fun l => (2 <? List.length (tokens l))%nat
                                       && (marker l =? "YSCALE")) [line]).
Proof.
  intros H. apply step_stages in H. cbv zeta in H.
  destruct H as (s1 & s2 & H1 & H2 & H3).
  apply markers_meta in H1. destruct H1 as (_ & _ & _ & X1 & Y1).
  apply labels_frame in H2. destruct H2 as (_ & _ & _ & X2 & Y2 & _).
  rewrite <- X1, <- Y1, <- X2, <- Y2. clear X1 Y1 X2 Y2.
  unfold scale_pair, marker. cbn [filter].
  destruct (2 <? List.length (tokens line))%nat; cbn [andb].
  - rewrite exec_scales in H3. unfold floats_of. cbn [flat_map].
    destruct (String.eqb_spec (at_ (tokens line) 0) "XSCALE") as [E|E].
    + rewrite E. cbn [String.eqb Ascii.eqb Bool.eqb].
      destruct (float (at_ (tokens line) 1)); [|discriminate].
      destruct (float (at_ (tokens line) 2)); [|discriminate].
      injection H3 as <-. cbn. rewrite app_nil_r. auto.
    + destruct (at_ (tokens line) 0 =? "YSCALE").
      * destruct (float (at_ (tokens line) 1)); [|discriminate].
        destruct (float (at_ (tokens line) 2)); [|discriminate].
        injection H3 as <-. cbn. rewrite app_nil_r. auto.
      * injection H3 as <-. cbn. rewrite !app_nil_r. auto.
  - injection H3 as <-. cbn. rewrite !app_nil_r. auto.
Qed.

Lemma run_from_limits f :
  forall st st',
    run_from st f = Ok st' ->
    xlim st' = xlim st ++ scale_values "XSCALE" f
    /\ ylim st' = ylim st ++ scale_values "YSCALE" f
    /\ List.length (scale_values "XSCALE" f) =
       2 * List.length (filter (fun l => (2 <? List.length (tokens l))%nat
                                         && (marker l =? "XSCALE")) f)
    /\ List.length (scale_values "YSCALE" f) =
       2 * List.length (filter (fun l => (2 <? List.length (tokens l))%nat
                                         && (marker l =? "YSCALE")) f).
Proof.
  induction f as [|line f IH]; intros st st'.
  - intros [= <-]. cbn. now rewrite !app_nil_r.
  - rewrite run_from_cons. destruct (step st line) as [s|e] eqn:E;
      [|discriminate].
    intros R. destruct (IH _ _ R) as (-> & -> & LX & LY).
    destruct (step_limits _ _ _ E) as (-> & -> & LX1 & LY1).
    unfold scale_values in *. cbn [flat_map]. rewrite <- !app_assoc.
    split; [reflexivity|]. split; [reflexivity|].
    rewrite !length_app, LX, LY, LX1, LY1. cbn [filter].
    split.
    + destruct ((2 <? List.length (tokens line))%nat
                && (marker line =? "XSCALE")); cbn; lia.
    + destruct ((2 <? List.length (tokens line))%nat
                && (marker line =? "YSCALE")); cbn; lia.
Qed.

(** X7: the returned limits are read off the lines alone: xlim holds, in
    file order, the two numbers of every XSCALE line of three tokens or
    more, and ylim those of the YSCALE lines; so xlim has twice as many
    elements as there are such XSCALE lines, and is a two-element range
    exactly when there is one. *)
Theorem limits_are_all_scale_values f blocks cx cy xl yl xm ym :
  load_exp_datafile f blocks = Ok (cx, cy, xl, yl, xm, ym) ->
  xm = scale_values "XSCALE" f
  /\ ym = scale_values "YSCALE" f
  /\ List.length xm =
     2 * List.length (filter (fun l => (2 <? List.length (tokens l))%nat
                                       && (marker l =? "XSCALE")) f)
  /\ List.length ym =
     2 * List.length (filter (fun l => (2 <? List.length (tokens l))%nat
                                       && (marker l =? "YSCALE")) f).
Proof.
  unfold load_exp_datafile, run.
  destruct (run_from initial f) as [st|e] eqn:R; [|discriminate].
  destruct (run_from_limits _ _ _ R) as (X & Y & LX & LY). cbn in X, Y.
  unfold finish. destruct (negb blocks);
    [destruct (flatten (x st) (y st))|]; intros [= _ _ _ _ <- <-];
    rewrite X, Y; auto.
Qed.

(** *** What a coordinate line appends *)

(** X8: inside an open block with the clip on, a line that starts with no
    marker and has PLOTTED for second token (the line
    [$ PLOTTED COLUMNS ARE ...]) appends one None to the x-sequence and
    one to the y-sequence of the open block, and changes nothing else. *)
Theorem plotted_line_appends_sentinel st line a0 rest xb yb :
  tokens line = a0 :: "PLOTTED" :: rest ->
  ~ In a0 markers ->
  blockin st = true -> clip st = true ->
  xblock st = Some xb -> yblock st = Some yb ->
  step st line = Ok (set_yblock (yb ++ [None]) (set_xblock (xb ++ [None]) st)).
Proof.
  intros Ht Hm Hb Hc Hx Hy.
  rewrite step_plain_line by now rewrite (marker_of _ _ _ Ht).
  rewrite Hb, Hc, exec_coordinates, Ht, Hx, Hy. reflexivity.
Qed.

(** X9: inside an open block with the clip on, a line that starts with no
    marker and whose first two tokens are numbers appends the first to the
    x-sequence and the second to the y-sequence of the open block; the
    tokens after the second are not looked at. *)
Theorem numeric_line_appends_pair st line a0 a1 rest xb yb v w :
  tokens line = a0 :: a1 :: rest ->
  ~ In a0 markers ->
  a1 <> "PLOTTED" ->
  blockin st = true -> clip st = true ->
  xblock st = Some xb -> yblock st = Some yb ->
  float a0 = Some v -> float a1 = Some w ->
  step st line =
  Ok (set_yblock (yb ++ [Some w]) (set_xblock (xb ++ [Some v]) st)).
Proof.
  intros Ht Hm Hp Hb Hc Hx Hy F0 F1.
  rewrite (step_coordinate_line st line a0 a1 rest) by assumption.
  unfold tried. now rewrite Hx, Hy, F0, F1.
Qed.

(** *** No y-sequence outgrows its x-sequence *)

Lemma y_within_x_frame (s s' : state) :
  x s' = x s -> y s' = y s -> xblock s' = xblock s -> yblock s' = yblock s ->
  y_within_x s -> y_within_x s'.
Proof. unfold y_within_x. now intros -> -> -> ->. Qed.

Lemma coordinates_keep_y_within_x arr st st' :
  Stmt.exec (coordinates arr) st = Ok st' ->
  y_within_x st -> y_within_x st'.
Proof.
  rewrite exec_coordinates. unfold y_within_x.
  destruct st as [bi cl xs ys xb yb xl yl xm ym]. cbn.
  intros H [HF HB].
  destruct (at_ arr 1 =? "PLOTTED").
  - destruct xb as [xb|]; [|discriminate]. destruct yb as [yb|]; [|discriminate].
    injection H as <-. cbn. split; [assumption|].
    intros ? ? [= <-] [= <-]. rewrite !length_app. cbn.
    specialize (HB _ _ eq_refl eq_refl). lia.
  - injection H as <-. unfold tried. cbn.
    destruct xb as [xb|]; [|cbn; auto].
    destruct (float (at_ arr 0)); [|cbn; auto].
    destruct yb as [yb|]; cbn.
    + destruct (float (at_ arr 1)); cbn; (split; [assumption|]);
        intros ? ? [= <-] [= <-]; rewrite ?length_app; cbn;
        specialize (HB _ _ eq_refl eq_refl); lia.
    + split; [assumption|]. discriminate.
Qed.

Lemma step_keeps_y_within_x st line st' :
  step st line = Ok st' -> y_within_x st -> y_within_x st'.
Proof.
  intros H Hy. apply step_stages in H. cbv zeta in H.
  destruct H as (s1 & s2 & H1 & H2 & H3).
  assert (Y1 : y_within_x s1).
  { apply markers_cases in H1.
    destruct H1 as [[_ ->] | [[_ (xb & yb & Hx & Hyb & ->)] | (_ & _ & ->)]];
      [| |assumption]; destruct Hy as [HF HB]; split; cbn.
    - assumption.
    - intros ? ? [= <-] [= <-]. cbn. lia.
    - apply Forall2_app; [assumption|]. constructor; [|constructor]. auto.
    - auto. }
  assert (Y2 : y_within_x s2).
  { destruct (1 <? List.length (tokens line))%nat;
      [|injection H2 as <-; assumption].
    rewrite exec_labels_clip_data in H2. cbv zeta in H2.
    assert (YR : y_within_x (relabelled (tokens line) s1)).
    { destruct (relabelled_frame (tokens line) s1)
        as (_ & ? & ? & ? & ? & _).
      now apply (y_within_x_frame s1). }
    destruct (_ && _); [|injection H2 as <-; assumption].
    now apply (coordinates_keep_y_within_x _ _ _ H2). }
  apply scales_guard_frame in H3.
  destruct H3 as (_ & _ & ? & ? & ? & ? & _).
  now apply (y_within_x_frame s2).
Qed.

Lemma run_from_keeps_y_within_x f :
  forall st st',
    run_from st f = Ok st' -> y_within_x st -> y_within_x st'.
Proof.
  induction f as [|line f IH]; intros st st'.
  - now intros [= <-].
  - rewrite run_from_cons. destruct (step st line) as [s|e] eqn:E;
      [|discriminate].
    intros R Hy. apply (IH _ _ R). now apply (step_keeps_y_within_x _ _ _ E).
Qed.

(** X10: in what per-block mode returns, block by block, the y-sequence is
    never longer than the x-sequence: a coordinate line may leave an x
    value without its y value, never a y value without its x value. *)
Theorem y_sequence_never_longer f xs ys xl yl xm ym :
  load_exp_datafile f true = Ok (ByBlock xs, ByBlock ys, xl, yl, xm, ym) ->
  Forall2 (fun xb yb : list item => List.length yb <= List.length xb) xs ys.
Proof.
  unfold load_exp_datafile, run.
  destruct (run_from initial f) as [st|e] eqn:R; [|discriminate].
  cbn. intros [= <- <- _ _ _ _].
  apply (run_from_keeps_y_within_x _ _ _ R).
  split; cbn; [constructor | discriminate].
Qed.

(** *** The two modes *)

(** X11: on every input the two modes end alike.  They raise the same
    exception, or both return, with the same labels and limits, and the
    flattened x (and y) is the per-block x (and y) with a None after every
    block: zip drops no block. *)
Theorem flattened_is_per_block_delimited f :
  match load_exp_datafile f true with
  | Ok (cx, cy, xl, yl, xm, ym) =>
      exists xs ys,
        cx = ByBlock xs /\ cy = ByBlock ys /\
        List.length xs = List.length ys /\
        load_exp_datafile f false =
        Ok (Flat (List.concat (map delimited xs)),
            Flat (List.concat (map delimited ys)), xl, yl, xm, ym)
  | Raise e => load_exp_datafile f false = Raise e
  end.
Proof.
  unfold load_exp_datafile, run.
  destruct (run_from initial f) as [st|e] eqn:R; [|reflexivity].
  assert (L : List.length (x st) = List.length (y st))
    by now apply (run_from_same_length _ _ _ R).
  cbn. exists (x st), (y st). rewrite (flatten_eq _ _ L). auto.
Qed.

(** *** When the reader gives up *)

Lemma step_seen st line st' seen :
  step st line = Ok st' ->
  seen_block seen st ->
  seen_block (seen || (marker line =? "BLOCK")) st'.
Proof.
  intros H Hs. apply step_ok_inv in H.
  destruct H as (s1 & C & _ & _ & _ & NX & NY & _).
  destruct C as [[E ->] | [[E (xb & yb & Hx & Hy & ->)] | (E1 & E2 & ->)]].
  - rewrite E, orb_true_r. cbn in *. split; [rewrite NX|rewrite NY];
      discriminate.
  - rewrite E. cbn [String.eqb Ascii.eqb Bool.eqb]. rewrite orb_false_r.
    cbn in NX, NY. destruct seen; cbn in *.
    + split; [rewrite NX|rewrite NY]; congruence.
    + destruct Hs. congruence.
  - apply String.eqb_neq in E1. rewrite E1, orb_false_r.
    destruct seen; cbn in *; destruct Hs; split; tauto.
Qed.

Lemma run_from_first_error f :
  forall seen st,
    bound st -> seen_block seen st ->
    match first_error seen f with
    | Some e => run_from st f = Raise e
    | None => exists st', run_from st f = Ok st'
    end.
Proof.
  induction f as [|line f IH]; intros seen st Hb Hs.
  - cbn. eauto.
  - cbn [first_error]. rewrite run_from_cons.
    destruct (String.eqb_spec (marker line) "BLOCK") as [M|M].
    + destruct (step_total st line Hb) as [s E].
      * apply scale_ok_other; rewrite M; discriminate.
      * rewrite M. discriminate.
      * rewrite E. apply IH; [now apply (step_keeps_bound _ _ _ E)|].
        pose proof (step_seen _ _ _ _ E Hs) as H.
        now rewrite M, orb_true_r in H.
    + destruct (String.eqb_spec (marker line) "BLOCKEND") as [M'|M'];
        cbn [andb].
      * destruct seen; cbn [negb].
        -- destruct (step_total st line Hb) as [s E].
           ++ apply scale_ok_other; rewrite M'; discriminate.
           ++ intros _. exact Hs.
           ++ rewrite (scale_ok_other line) by (rewrite M'; discriminate).
              cbn [negb]. rewrite E.
              apply IH; [now apply (step_keeps_bound _ _ _ E)|].
              pose proof (step_seen _ _ _ _ E Hs) as H.
              apply String.eqb_neq in M. now rewrite M in H.
        -- rewrite (step_blockend _ _ M'). destruct Hs as [-> _].
           reflexivity.
      * destruct (scale_ok line) eqn:S; cbn [negb].
        -- destruct (step_total st line Hb S) as [s E];
             [intros; contradiction|].
           rewrite E. apply IH; [now apply (step_keeps_bound _ _ _ E)|].
           pose proof (step_seen _ _ _ _ E Hs) as H.
           apply String.eqb_neq in M. rewrite M in H.
           now rewrite orb_false_r in H.
        -- now rewrite (step_scale_raise _ _ Hb S).
Qed.

(** X12: whether the call returns is read off the lines alone.  It raises
    at the first line that is a BLOCKEND line with no BLOCK line before it
    (UnboundLocalError) or an XSCALE or YSCALE line of three tokens or
    more whose second or third token is no number (ValueError), with that
    exception; it returns when there is no such line.  Nothing else makes
    it raise, in either mode. *)
Theorem reader_gives_up_at_first_error f blocks :
  match first_error false f with
  | Some e => load_exp_datafile f blocks = Raise e
  | None => exists out, load_exp_datafile f blocks = Ok out
  end.
Proof.
  unfold load_exp_datafile, run.
  pose proof (run_from_first_error f false initial initial_bound) as H.
  destruct (first_error false f) as [e|].
  - rewrite H; [reflexivity | split; reflexivity].
  - destruct H as [st ->]; [split; reflexivity|]. eauto.
Qed.

(** *** The calls of [plot_exp_datafile] *)

Lemma plot_each_recorder l :
  forall log,
    plot_each (list call) Empty_set recorder l log =
    inl (log ++ map (fun p => Plot (fst p) (snd p)) l).
Proof.
  induction l as [|[xa ya] l IH]; intros log; cbn.
  - now rewrite app_nil_r.
  - rewrite IH, <- app_assoc. reflexivity.
Qed.

Lemma combine_seq (xs ys : list (list item)) :
  combine (map Seq xs) (map Seq ys) =
  map (fun p => (Seq (fst p), Seq (snd p))) (combine xs ys).
Proof.
  revert ys. induction xs as [|xb xs IH]; intros [|yb ys]; cbn; auto.
  now rewrite IH.
Qed.



(** *** A clip that stays off *)

Lemma step_clip_off_block_vars st line st' :
  step st line = Ok st' ->
  clip st = false ->
  ~ (marker line = "CLIP" /\ second line = "ON") ->
  clip st' = false
  /\ ((xblock st' = xblock st /\ yblock st' = yblock st)
      \/ (xblock st' = Some [] /\ yblock st' = Some [])).
Proof.
  intros H Hc Hon. split.
  - rewrite (step_clip _ _ _ H), Hc.
    destruct (String.eqb_spec (marker line) "CLIP");
      destruct (String.eqb_spec (second line) "ON");
      destruct (second line =? "OFF"); cbn; tauto.
  - destruct (String.eqb_spec (marker line) "BLOCK") as [M|M].
    + right. apply step_stages in H. cbv zeta in H.
      destruct H as (s1 & s2 & H1 & H2 & H3).
      apply scales_guard_frame in H3.
      destruct H3 as (_ & _ & _ & _ & -> & -> & _).
      apply markers_cases in H1. fold (marker line) in H1.
      destruct H1 as [[_ ->] | [[E _] | (E & _)]]; try congruence.
      destruct (1 <? List.length (tokens line))%nat;
        [|injection H2 as <-; auto].
      apply labels_meta in H2. destruct H2 as (_ & _ & _ & K).
      rewrite K.
      * destruct (relabelled_frame (tokens line) (opened st))
          as (_ & _ & _ & -> & -> & _). auto.
      * rewrite relabelled_clip. fold (marker line). rewrite M.
        cbn. exact Hc.
    + left. now apply (step_clip_off_blocks _ _ _ H).
Qed.

Lemma run_from_clip_off ox oy g :
  forall s s',
    run_from s g = Ok s' ->
    clip s = false ->
    Forall (fun l => ~ (marker l = "CLIP" /\ second l = "ON")) g ->
    (xblock s = ox \/ xblock s = Some []) ->
    (yblock s = oy \/ yblock s = Some []) ->
    exists more_x more_y,
      x s' = x s ++ more_x /\ y s' = y s ++ more_y
      /\ Forall (fun b => b = [] \/ ox = Some b) more_x
      /\ Forall (fun b => b = [] \/ oy = Some b) more_y.
Proof.
  induction g as [|line g IH]; intros s s' R Hc Hg Hx Hy.
  - injection R as <-. exists [], []. rewrite !app_nil_r. auto.
  - rewrite run_from_cons in R.
    destruct (step s line) as [s1|e] eqn:E; [|discriminate].
    inversion Hg as [|? ? Hl Hg']; subst.
    destruct (step_clip_off_block_vars _ _ _ E Hc Hl) as [Hc1 V].
    assert (Hx1 : xblock s1 = ox \/ xblock s1 = Some [])
      by (destruct V as [[-> _]|[-> _]]; auto).
    assert (Hy1 : yblock s1 = oy \/ yblock s1 = Some [])
      by (destruct V as [[_ ->]|[_ ->]]; auto).
    destruct (IH _ _ R Hc1 Hg' Hx1 Hy1) as (mx & my & X & Y & FX & FY).
    apply step_ok_inv in E.
    destruct E as (t & C & _ & X1 & Y1 & _).
    destruct C as [[_ ->] | [[_ (xb & yb & Bx & By & ->)] | (_ & _ & ->)]];
      cbn in X1, Y1.
    + exists mx, my. rewrite X, Y, X1, Y1. auto.
    + exists (xb :: mx), (yb :: my).
      rewrite X, Y, X1, Y1, <- !app_assoc. cbn.
      split; [reflexivity|]. split; [reflexivity|].
      split; constructor; auto.
      * destruct Hx as [Hx|Hx]; [right|left]; congruence.
      * destruct Hy as [Hy|Hy]; [right|left]; congruence.
    + exists mx, my. rewrite X, Y, X1, Y1. auto.
Qed.

(** X15: a clip that is switched off and never on again silences the rest
    of the file, block boundaries included.  After lines that left the
    clip off, as long as no CLIP ON line follows, every block sealed later
    is empty, or is the block that the block variables still held. *)
Theorem clip_off_empties_later_blocks pre g st st' :
  run pre = Ok st ->
  clip st = false ->
  Forall (fun l => ~ (marker l = "CLIP" /\ second l = "ON")) g ->
  run (pre ++ g) = Ok st' ->
  exists more_x more_y,
    x st' = x st ++ more_x /\ y st' = y st ++ more_y
    /\ Forall (fun b => b = [] \/ xblock st = Some b) more_x
    /\ Forall (fun b => b = [] \/ yblock st = Some b) more_y.
Proof.
  intros R Hc Hg. unfold run in *. rewrite run_from_app, R. intros R'.
  apply (run_from_clip_off (xblock st) (yblock st) g st st'); auto.
Qed.

End Reader.

Arguments mkState {F B} _ _ _ _ _ _ _ _ _ _.
Arguments blockin {F B} _.
Arguments clip {F B} _.
Arguments x {F B} _.
Arguments y {F B} _.
Arguments xblock {F B} _.
Arguments yblock {F B} _.
Arguments xlab {F B} _.
Arguments ylab {F B} _.
Arguments xlim {F B} _.
Arguments ylim {F B} _.
Arguments set_clip {F B} _ _.
Arguments initial {F}.
Arguments opened {F} _.
Arguments bound {F} _.
Arguments step {F} _ _ _.
Arguments run_from {F} _ _ _.
Arguments run {F} _ _.
Arguments ByBlock {F} _.
Arguments Flat {F} _.
Arguments load_exp_datafile {F} _ _ _.
Arguments scale_ok {F} _ _.
Arguments well_formed {F} _ _ _.
Arguments delimited {F} _.
Arguments step_s {F} _ _ _.
Arguments contents {F} _.
Arguments set_xblock {F B} _ _.
Arguments set_yblock {F B} _ _.
Arguments Seq {F} _.
Arguments Seqs {F} _.
Arguments Scalar {F} _.
Arguments Returned {Ax E} _.
Arguments LoadRaised {Ax E} _.
Arguments AxesRaised {Ax E} _.
Arguments plot_exp_datafile {F} _ {Ax E} _ _ _ _.
Arguments Subplots {F}.
Arguments Plot {F} _ _.
Arguments SetXlabel {F} _.
Arguments SetYlabel {F} _.
Arguments SetXlim {F} _.
Arguments SetYlim {F} _.
Arguments recorder {F}.
Arguments scale_values {F} _ _ _.
Arguments first_error {F} _ _ _.

(** ** The reader with Python's [float]: worked inputs *)

Import Examples.

(** [float] on the numbers of the examples, and on some text. *)
Lemma float_samples :
  map PyFloat.float ["1.0"; "2.0"; "3.0"; "4.0"; "0"; "100"; "-5"; "5"]
  = map Some [f1; f2; f3; f4; f0; f100; f5_neg; f5]
  /\ map PyFloat.float
       ["abc"; "def"; "$"; "."; "1e"; "e5"; "1__0"; "_1"; "0x10"; "1,5"]
     = repeat None 10
  /\ map PyFloat.float ["1"; "1."; "1e0"; "+1.0"; "10e-1"; "0_1"; "1E+00"]
     = repeat (Some f1) 7
  /\ map PyFloat.float ["0.1"; "-inf"; "Infinity"; "NaN"; "1e400"; "-0.0"]
     = [Some (S754_finite false 7205759403792794 (-56));
        Some (S754_infinity true); Some (S754_infinity false);
        Some S754_nan; Some (S754_infinity false); Some (S754_zero true)].
Proof. repeat split; vm_compute; reflexivity. Qed.

(** No marker of the file format is a number. *)
Lemma float_rejects_the_markers :
  Forall (fun t => PyFloat.float t = None)
         ["BLOCK"; "BLOCKEND"; "XTEXT"; "YTEXT"; "CLIP"; "ON"; "OFF";
          "XSCALE"; "YSCALE"; "PLOTTED"].
Proof. repeat constructor. Qed.

(** The tokens of a line: blanks, tabs and the newline separate them. *)
Lemma tokens_samples :
  tokens ("  1.5" ++ String "009" " 2.5 M " ++ LF) = ["1.5"; "2.5"; "M"]
  /\ tokens ("$ PLOTTED COLUMNS ARE X Y" ++ LF)
     = ["$"; "PLOTTED"; "COLUMNS"; "ARE"; "X"; "Y"]
  /\ tokens LF = [].
Proof. repeat split. Qed.

(** The store machine does share: from a store in which a sealed block and
    [xblock] name one list object (no run of the loop leads there), an
    append through [xblock] shows in the sealed block. *)
Lemma sharing_in_the_store_machine :
  exists m',
    step_s PyFloat.float
           (mkState true true [0] [1] (Some 0) (Some 1)
                    EmptyString EmptyString [] [], [[]; []])
           "1 2" = Ok m'
    /\ x (contents m') = [[Some f1]] /\ y (contents m') = [[Some f2]].
Proof. eexists. split; [vm_compute; reflexivity|]. split; reflexivity. Qed.

(** C1 (where the code departs from it): inside an open block with the clip
    on, the line 1.0 abc is not discarded as a whole.  The x value 1.0 is
    appended before the second token is found not to be a number, so the
    sealed block has the x-sequence [1.0] and an empty y-sequence. *)
Theorem C1_half_pair_is_appended :
  load_exp_datafile PyFloat.float half_pair true =
  Ok (ByBlock [[Some f1]], ByBlock [[]], EmptyString, EmptyString, [], []).
Proof. vm_compute. reflexivity. Qed.

(** C2 fails on the code: a file that is a lone BLOCKEND line raises, and a
    BLOCKEND line after a sealed block changes the result, which then
    holds that block twice. *)
Lemma C2_blockend_is_no_noop :
  load_exp_datafile PyFloat.float lone_blockend true = Raise UnboundLocalError
  /\ load_exp_datafile PyFloat.float (one_block ++ lone_blockend) true =
     Ok (ByBlock [[Some f1]; [Some f1]], ByBlock [[Some f2]; [Some f2]],
         EmptyString, EmptyString, [], [])
  /\ load_exp_datafile PyFloat.float (one_block ++ lone_blockend) true <>
     load_exp_datafile PyFloat.float one_block true.
Proof.
  split; [vm_compute; reflexivity|].
  split; [vm_compute; reflexivity|].
  vm_compute. discriminate.
Qed.

Lemma C2_blockend_outside_a_block_witness :
  run PyFloat.float ([] ++ lone_blockend) = Raise UnboundLocalError
  /\ exists xs xb ys yb st',
      [[Some f1]] = xs ++ [xb] /\ [[Some f2]] = ys ++ [yb] /\
      run PyFloat.float (one_block ++ lone_blockend) = Ok st' /\
      x st' = xs ++ [xb; xb] /\ y st' = ys ++ [yb; yb] /\
      blockin st' = false.
Proof.
  split.
  - apply (C2_blockend_outside_a_block spec_float PyFloat.float
             [] initial ("BLOCKEND" ++ LF)%string);
      [reflexivity | reflexivity | reflexivity | constructor].
  - apply (C2_blockend_outside_a_block spec_float PyFloat.float
             one_block
             (mkState false true [[Some f1]] [[Some f2]]
                      (Some [Some f1]) (Some [Some f2])
                      EmptyString EmptyString [] [])
             ("BLOCKEND" ++ LF)%string);
      [vm_compute; reflexivity | reflexivity | reflexivity |].
    apply Exists_cons_hd. reflexivity.
Defined.

(** C3 fails on the code: a file that is the line XSCALE 0 abc raises. *)
Lemma C3_bad_scale_line_raises :
  load_exp_datafile PyFloat.float bad_scale false = Raise ValueError.
Proof. vm_compute. reflexivity. Qed.

Lemma C3_value_error_only_on_scale_lines_witness :
  run PyFloat.float ([] ++ ["XSCALE 0 abc"]) = Raise ValueError
  /\ exists st', run PyFloat.float ([] ++ ["abc def"]) = Ok st'.
Proof.
  split.
  - apply (C3_value_error_only_on_scale_lines spec_float PyFloat.float
             [] initial "XSCALE 0 abc"); reflexivity.
  - apply (C3_value_error_only_on_scale_lines spec_float PyFloat.float
             [] initial "abc def");
      [reflexivity | reflexivity | discriminate].
Defined.

(** C4 fails on the code: inside an open block with the clip on, the line
    XTEXT PLOTTED sets the label and also appends the sentinel. *)
Lemma C4_label_line_appends_sentinel :
  marker "XTEXT PLOTTED" = "XTEXT"
  /\ load_exp_datafile PyFloat.float label_plotted true =
     Ok (ByBlock [[None]], ByBlock [[None]], "PLOTTED", EmptyString, [], []).
Proof. split; vm_compute; reflexivity. Qed.

Lemma C4_label_and_clip_lines_in_a_block_witness :
  exists st',
    step PyFloat.float (opened initial) "XTEXT PLOTTED" = Ok st' /\
    x st' = [] /\ y st' = [] /\
    (true = true -> true = true -> second "XTEXT PLOTTED" = "PLOTTED" ->
     exists xb yb,
       Some [] = Some xb /\ Some [] = Some yb /\
       xblock st' = Some (xb ++ [None]) /\
       yblock st' = Some (yb ++ [None])) /\
    (~ (true = true /\ true = true /\ second "XTEXT PLOTTED" = "PLOTTED") ->
     xblock st' = Some [] /\ yblock st' = Some []).
Proof.
  apply (C4_label_and_clip_lines_in_a_block spec_float PyFloat.float
           (opened initial) "XTEXT PLOTTED").
  - intros _. split; discriminate.
  - left. reflexivity.
  - reflexivity.
Defined.

Lemma C5_roundtrip_example_witness :
  load_exp_datafile PyFloat.float roundtrip false =
  Ok (Flat [Some f1; Some f2; None], Flat [Some f2; Some f3; None],
      "Temperature", "Energy", [], []).
Proof.
  apply (C5_roundtrip_example spec_float PyFloat.float f1 f2 f3);
    vm_compute; reflexivity.
Defined.

Lemma C6_block_count_and_flattening_witness :
  well_formed PyFloat.float (roundtrip ++ clip_toggle) 2
  /\ exists xs ys xl yl xm ym,
      load_exp_datafile PyFloat.float (roundtrip ++ clip_toggle) true =
      Ok (ByBlock xs, ByBlock ys, xl, yl, xm, ym)
      /\ List.length xs = 2 /\ List.length ys = 2
      /\ load_exp_datafile PyFloat.float (roundtrip ++ clip_toggle) false =
         Ok (Flat (List.concat (map delimited xs)),
             Flat (List.concat (map delimited ys)), xl, yl, xm, ym).
Proof.
  assert (W : well_formed PyFloat.float (roundtrip ++ clip_toggle) 2)
    by (split; vm_compute; reflexivity).
  split; [exact W|].
  exact (C6_block_count_and_flattening spec_float PyFloat.float _ _ W).
Defined.

Lemma C7_clip_flag_witness :
  load_exp_datafile PyFloat.float clip_toggle true =
  Ok (ByBlock [[Some f3]], ByBlock [[Some f4]],
      EmptyString, EmptyString, [], []).
Proof.
  apply (proj2 (proj2 (proj2 (C7_clip_flag spec_float PyFloat.float))));
    vm_compute; reflexivity.
Defined.

Lemma C8_scale_lines_accumulate_witness :
  load_exp_datafile PyFloat.float scales_once false =
  Ok (Flat [], Flat [], EmptyString, EmptyString, [f0; f100], [f5_neg; f5])
  /\ exists st',
      run_from PyFloat.float initial scales_twice = Ok st'
      /\ xlim st' = [] ++ [f0; f100; f1; f2].
Proof.
  split.
  - apply (proj1 (proj2 (proj2
             (C8_scale_lines_accumulate spec_float PyFloat.float))));
      vm_compute; reflexivity.
  - apply (proj2 (proj2 (proj2
             (C8_scale_lines_accumulate spec_float PyFloat.float)))
             initial ("XSCALE 0 100" ++ LF)%string ("XSCALE 1 2" ++ LF)%string
             "0" "100" [] "1" "2" []).
    + intros E. discriminate E.
    + reflexivity.
    + reflexivity.
    + vm_compute; reflexivity.
    + vm_compute; reflexivity.
    + vm_compute; reflexivity.
    + vm_compute; reflexivity.
Defined.

Lemma C9_sealed_lists_same_length_witness :
  exists xs ys,
    ByBlock [[Some f1]; [Some f1]] = ByBlock xs /\
    ByBlock [[Some f2]; [Some f2]] = ByBlock ys /\
    List.length xs = List.length ys.
Proof.
  apply (proj2 (proj2 (C9_sealed_lists_same_length spec_float PyFloat.float))
           (one_block ++ lone_blockend) _ _ EmptyString EmptyString [] []).
  vm_compute. reflexivity.
Defined.

Lemma C10_metadata_in_any_state_witness :
  exists st',
    step PyFloat.float (set_clip false (opened initial))
         "XTEXT Temperature (K)" = Ok st'
    /\ xlab st' = PyStr.join " " ["Temperature"; "(K)"].
Proof.
  assert (B : bound (set_clip false (opened (@initial spec_float))))
    by (intros _; split; discriminate).
  apply (proj1 (C10_metadata_in_any_state spec_float PyFloat.float
                  (set_clip false (opened initial))
                  "XTEXT Temperature (K)" B)).
  reflexivity.
Defined.

(** ** The further properties on worked inputs *)


Lemma plain_line_outside_block_is_ignored_witness :
  step PyFloat.float initial ("1.0 2.0" ++ LF) = Ok initial.
Proof.
  apply (plain_line_outside_block_is_ignored spec_float PyFloat.float
           initial ("1.0 2.0" ++ LF)); [reflexivity|].
  vm_compute. intuition discriminate.
Defined.

Lemma lines_before_block_are_dropped_witness :
  load_exp_datafile PyFloat.float
    (file ["BLOCK"; "1 2"] ++ file ["3 4"; "$ PLOTTED"; "5"]
       ++ ("BLOCK" ++ LF)%string :: file ["2 1"; "BLOCKEND"]) true
  = load_exp_datafile PyFloat.float
      (file ["BLOCK"; "1 2"]
         ++ ("BLOCK" ++ LF)%string :: file ["2 1"; "BLOCKEND"]) true
  /\ load_exp_datafile PyFloat.float
       (file ["BLOCK"; "1 2"]
          ++ ("BLOCK" ++ LF)%string :: file ["2 1"; "BLOCKEND"]) true
     = Ok (ByBlock [[Some f2]], ByBlock [[Some f1]],
           EmptyString, EmptyString, [], []).
Proof.
  split; [|vm_compute; reflexivity].
  apply (lines_before_block_are_dropped spec_float PyFloat.float
           (file ["BLOCK"; "1 2"]) (file ["3 4"; "$ PLOTTED"; "5"])
           ("BLOCK" ++ LF)%string (file ["2 1"; "BLOCKEND"]) true);
    [|reflexivity].
  repeat constructor; vm_compute; intuition discriminate.
Defined.

Lemma blocks_grow_by_blockend_lines_witness :
  exists xs ys xl yl xm ym more_x more_y,
    load_exp_datafile PyFloat.float one_block true =
    Ok (ByBlock xs, ByBlock ys, xl, yl, xm, ym)
    /\ [[Some f1]; [Some f3]] = xs ++ more_x
    /\ [[Some f2]; [Some f4]] = ys ++ more_y
    /\ List.length more_x = count_blockend clip_toggle
    /\ List.length more_y = count_blockend clip_toggle
    /\ List.length [[Some f1]; [Some f3]]
       = count_blockend (one_block ++ clip_toggle).
Proof.
  apply (blocks_grow_by_blockend_lines spec_float PyFloat.float
           one_block clip_toggle
           [[Some f1]; [Some f3]] [[Some f2]; [Some f4]]
           EmptyString EmptyString [] []).
  vm_compute. reflexivity.
Defined.

Lemma labels_are_the_last_ones_witness :
  "Temperature (K)"
  = last_label "XTEXT"
      (file ["XTEXT T"; "BLOCK"; "XTEXT  Temperature  (K)"; "YTEXT Energy";
             "XTEXT"])
      EmptyString
  /\ "Energy"
     = last_label "YTEXT"
         (file ["XTEXT T"; "BLOCK"; "XTEXT  Temperature  (K)";
                "YTEXT Energy"; "XTEXT"])
         EmptyString.
Proof.
  apply (labels_are_the_last_ones spec_float PyFloat.float
           (file ["XTEXT T"; "BLOCK"; "XTEXT  Temperature  (K)";
                  "YTEXT Energy"; "XTEXT"])
           false (Flat []) (Flat []) "Temperature (K)" "Energy" [] []).
  vm_compute. reflexivity.
Defined.

Lemma limits_are_all_scale_values_witness :
  [f0; f100; f1; f2] = scale_values PyFloat.float "XSCALE" scales_twice
  /\ [] = scale_values PyFloat.float "YSCALE" scales_twice
  /\ List.length [f0; f100; f1; f2]
     = 2 * List.length
             (filter (fun l => (2 <? List.length (tokens l))%nat
                               && (marker l =? "XSCALE"))
                     scales_twice)
  /\ List.length (@nil spec_float)
     = 2 * List.length
             (filter (fun l => (2 <? List.length (tokens l))%nat
                               && (marker l =? "YSCALE"))
                     scales_twice).
Proof.
  apply (limits_are_all_scale_values spec_float PyFloat.float
           scales_twice false (Flat []) (Flat [])
           EmptyString EmptyString [f0; f100; f1; f2] []).
  vm_compute. reflexivity.
Defined.

Lemma plotted_line_appends_sentinel_witness :
  step PyFloat.float (opened initial) ("$ PLOTTED COLUMNS ARE X Y" ++ LF)
  = Ok (set_yblock ([] ++ [None]) (set_xblock ([] ++ [None])
                                               (opened initial))).
Proof.
  apply (plotted_line_appends_sentinel spec_float PyFloat.float
           (opened initial) ("$ PLOTTED COLUMNS ARE X Y" ++ LF) "$"
           ["COLUMNS"; "ARE"; "X"; "Y"] [] []);
    try reflexivity.
  vm_compute. intuition discriminate.
Defined.

Lemma numeric_line_appends_pair_witness :
  step PyFloat.float (opened initial) ("1.0 2.0 3.0" ++ LF)
  = Ok (set_yblock ([] ++ [Some f2]) (set_xblock ([] ++ [Some f1])
                                                  (opened initial))).
Proof.
  apply (numeric_line_appends_pair spec_float PyFloat.float
           (opened initial) ("1.0 2.0 3.0" ++ LF) "1.0" "2.0" ["3.0"]
           [] [] f1 f2);
    try reflexivity; try discriminate.
  vm_compute. intuition discriminate.
Defined.

Lemma y_sequence_never_longer_witness :
  Forall2 (fun xb yb : list (item spec_float) =>
             List.length yb <= List.length xb)
          [[Some f1]] [[]].
Proof.
  apply (y_sequence_never_longer spec_float PyFloat.float half_pair
           [[Some f1]] [[]] EmptyString EmptyString [] []).
  vm_compute. reflexivity.
Defined.



Lemma clip_off_empties_later_blocks_witness :
  exists more_x more_y : list (list (item spec_float)),
    [[Some f1]; []] = [] ++ more_x
    /\ [[Some f2]; []] = [] ++ more_y
    /\ Forall (fun b => b = [] \/ Some [Some f1] = Some b) more_x
    /\ Forall (fun b => b = [] \/ Some [Some f2] = Some b) more_y.
Proof.
  apply (clip_off_empties_later_blocks spec_float PyFloat.float
           (file ["BLOCK"; "1 2"; "CLIP OFF"])
           (file ["3 4"; "BLOCKEND"; "BLOCK"; "3 4"; "BLOCKEND"])
           (mkState true false [] [] (Some [Some f1]) (Some [Some f2])
                    EmptyString EmptyString [] [])
           (mkState false false [[Some f1]; []] [[Some f2]; []]
                    (Some []) (Some [])
                    EmptyString EmptyString [] []));
    try (vm_compute; reflexivity).
  repeat constructor; intros [E _]; vm_compute in E; discriminate E.
Defined.
